(** * REW sound-level compliance pipeline: ingestion, session allocation,
      breach evaluation

    A shallow embedding of [build_database.py] and [spl_session_summary.py].
    Decibel values are IEEE doubles in the scripts; here they are exact
    rationals ([Q]) with a separate not-a-number value, and Python's [==]
    on them is [Qeq_bool].  Calendar values follow the field layout of
    Python's [datetime] and [time] objects. *)

From Stdlib Require Import ZArith QArith Qround List String Ascii Bool Lia.
From Stdlib Require Import Permutation Sorted.
Import ListNotations.
Local Open Scope Z_scope.

(** ** Python's [datetime.time] and [datetime.datetime] *)

Record time := mktime
  { t_hour : Z; t_minute : Z; t_second : Z; t_microsecond : Z }.

Record datetime := mkdatetime
  { year : Z; month : Z; day : Z;
    hour : Z; minute : Z; second : Z; microsecond : Z }.

(** [time(h, m)] and [time(h, m, s)] as the scripts write them. *)
Definition time_hm (h m : Z) : time := mktime h m 0 0.
Definition time_hms (h m s : Z) : time := mktime h m s 0.

(** [dt.time()] *)
Definition dt_time (dt : datetime) : time :=
  mktime (hour dt) (minute dt) (second dt) (microsecond dt).

(** [time._cmp]: the tuples (hour, minute, second, microsecond) are
    compared lexicographically. *)
Definition lex (c1 c2 : comparison) : comparison :=
  match c1 with Eq => c2 | _ => c1 end.

Definition time_cmp (a b : time) : comparison :=
  lex (t_hour a ?= t_hour b)
   (lex (t_minute a ?= t_minute b)
     (lex (t_second a ?= t_second b)
          (t_microsecond a ?= t_microsecond b))).

(** [a <= b], [a >= b], [a > b] on [time] objects. *)
Definition time_le (a b : time) : bool :=
  match time_cmp a b with Gt => false | _ => true end.
Definition time_ge (a b : time) : bool :=
  match time_cmp a b with Lt => false | _ => true end.
Definition time_gt (a b : time) : bool :=
  match time_cmp a b with Gt => true | _ => false end.

(** [datetime._is_leap], [_days_before_year], [_days_in_month],
    [_days_before_month], [_ymd2ord] and [weekday] of CPython's datetime. *)
Definition is_leap (y : Z) : bool :=
  (y mod 4 =? 0) && (negb (y mod 100 =? 0) || (y mod 400 =? 0)).

Definition days_before_year (y : Z) : Z :=
  let y1 := y - 1 in y1 * 365 + y1 / 4 - y1 / 100 + y1 / 400.

Definition days_in_month_table : list Z :=
  [31; 28; 31; 30; 31; 30; 31; 31; 30; 31; 30; 31].

Definition days_in_month (y m : Z) : Z :=
  if (m =? 2) && is_leap y then 29
  else nth (Z.to_nat (m - 1)) days_in_month_table 0.

Definition days_before_month (y m : Z) : Z :=
  fold_left Z.add (firstn (Z.to_nat (m - 1)) days_in_month_table) 0
  + (if (2 <? m) && is_leap y then 1 else 0).

Definition ymd2ord (y m d : Z) : Z :=
  days_before_year y + days_before_month y m + d.

Definition toordinal (dt : datetime) : Z :=
  ymd2ord (year dt) (month dt) (day dt).

(** [dt.weekday()]: Monday is 0, Sunday is 6. *)
Definition weekday (dt : datetime) : Z := (toordinal dt + 6) mod 7.

(** ** Session windows *)

(** [session_includes(dt, weekday, start, end)], the same function in both
    scripts. *)
Definition session_includes (dt : datetime) (wd : Z) (start end_ : time) : bool :=
  if time_le start end_ then
    (weekday dt =? wd) && (time_le start (dt_time dt) && time_le (dt_time dt) end_)
  else
    ((weekday dt =? wd) && time_ge (dt_time dt) start)
    || (((weekday dt + 1) mod 7 =? wd) && time_le (dt_time dt) end_).

(** The [SESSIONS] list: (label, weekday, start_time, end_time). *)
Definition SessionDef := (string * Z * time * time)%type.

Definition SESSIONS : list SessionDef :=
  [ ("Thursday_21-00"%string, 3, time_hm 21 0, time_hms 23 59 59);
    ("Friday_00-01"%string,   4, time_hm 0 0,  time_hm 1 0);
    ("Friday_01-04"%string,   4, time_hm 1 0,  time_hm 4 0);
    ("Friday_21-00"%string,   4, time_hm 21 0, time_hms 23 59 59);
    ("Saturday_00-01"%string, 5, time_hm 0 0,  time_hm 1 0);
    ("Saturday_01-04"%string, 5, time_hm 1 0,  time_hm 4 0);
    ("Saturday_21-00"%string, 5, time_hm 21 0, time_hms 23 59 59);
    ("Sunday_00-01"%string,   6, time_hm 0 0,  time_hm 1 0);
    ("Sunday_01-04"%string,   6, time_hm 1 0,  time_hm 4 0);
    ("Sunday_21-00"%string,   6, time_hm 21 0, time_hms 23 59 59);
    ("Monday_00-01"%string,   0, time_hm 0 0,  time_hm 1 0);
    ("Monday_01-04"%string,   0, time_hm 1 0,  time_hm 4 0) ].

(** ** Day / night classification ([spl_session_summary.py]) *)

Definition is_day (ts : datetime) : bool :=
  let wd := weekday ts in
  let t := dt_time ts in
  if existsb (Z.eqb wd) [6; 0; 1; 2; 3]
     && (time_le (time_hm 10 0) t && time_le t (time_hm 23 59)) then true
  else if (wd =? 4) && (time_le (time_hm 10 0) t || time_le t (time_hm 1 0)) then true
  else if (wd =? 5) && (time_le (time_hm 10 0) t || time_le t (time_hm 1 0)) then true
  else false.

(** Calendar instants used in the examples below. *)
Definition at_ (y m d hh mm : Z) : datetime := mkdatetime y m d hh mm 0 0.
Definition thursday_0030  := at_ 2025 5 1 0 30.
Definition friday_0030    := at_ 2025 5 2 0 30.
Definition friday_0900    := at_ 2025 5 2 9 0.
Definition friday_2330    := at_ 2025 5 2 23 30.
Definition saturday_0030  := at_ 2025 5 3 0 30.
Definition saturday_0200  := at_ 2025 5 3 2 0.
Definition sunday_1100    := at_ 2025 5 4 11 0.
Definition wednesday_0200 := at_ 2025 5 7 2 0.

(** [date.fromordinal] ([_ord2ymd]) and [datetime + timedelta]. *)
Definition DI400Y : Z := days_before_year 401.
Definition DI100Y : Z := days_before_year 101.
Definition DI4Y : Z := days_before_year 5.

Definition ord2ymd (ordinal : Z) : Z * Z * Z :=
  let n := ordinal - 1 in
  let n400 := n / DI400Y in let n := n mod DI400Y in
  let y := n400 * 400 + 1 in
  let n100 := n / DI100Y in let n := n mod DI100Y in
  let n4 := n / DI4Y in let n := n mod DI4Y in
  let n1 := n / 365 in let n := n mod 365 in
  let y := y + n100 * 100 + n4 * 4 + n1 in
  if (n1 =? 4) || (n100 =? 4) then (y - 1, 12, 31)
  else
    let leapyear := (n1 =? 3) && (negb (n4 =? 24) || (n100 =? 3)) in
    let m := Z.shiftr (n + 50) 5 in
    let preceding :=
      fold_left Z.add (firstn (Z.to_nat (m - 1)) days_in_month_table) 0
      + (if (2 <? m) && leapyear then 1 else 0) in
    if n <? preceding then
      let m' := m - 1 in
      let preceding' :=
        preceding - (nth (Z.to_nat (m' - 1)) days_in_month_table 0
                     + (if (m' =? 2) && leapyear then 1 else 0)) in
      (y, m', n - preceding' + 1)
    else (y, m, n - preceding + 1).

(** Round to the nearest integer, ties to the even one: what [round] and
    [timedelta] do with an exactly representable value. *)
Definition round_half_even (x : Q) : Z :=
  let f := Qfloor x in
  match (x - inject_Z f ?= 1 # 2)%Q with
  | Lt => f
  | Gt => f + 1
  | Eq => if Z.even f then f else f + 1
  end.

(** [dt + timedelta(seconds=s)]: the offset is rounded to whole
    microseconds and carried through the calendar fields.  The offset is
    taken as a rational; the code hands over the double it has computed,
    which for a few rows of a long file lands on the neighbouring
    microsecond.  No theorem below depends on which microsecond a stamp
    lands on. *)
Definition add_seconds (dt : datetime) (s : Q) : datetime :=
  let us := round_half_even (s * inject_Z 1000000)%Q in
  let total :=
    (((toordinal dt * 24 + hour dt) * 60 + minute dt) * 60 + second dt)
    * 1000000 + microsecond dt + us in
  let secs := total / 1000000 in
  let mins := secs / 60 in
  let hours := mins / 60 in
  let '(y, m, d) := ord2ymd (hours / 24) in
  mkdatetime y m d (hours mod 24) (mins mod 60) (secs mod 60) (total mod 1000000).

(** ** Text helpers *)

Local Open Scope string_scope.

(** [needle in hay] on Python strings. *)
Fixpoint contains (needle hay : string) : bool :=
  prefix needle hay
  || match hay with
     | EmptyString => false
     | String _ rest => contains needle rest
     end.

(** [label in labels] on a list of strings. *)
Definition mem_string (s : string) (l : list string) : bool :=
  existsb (String.eqb s) l.

Definition lower_ascii (c : ascii) : ascii :=
  let n := nat_of_ascii c in
  if (65 <=? n)%nat && (n <=? 90)%nat then ascii_of_nat (n + 32) else c.

(** [s.lower()] on text in the ASCII range; other characters are left as
    they are. *)
Fixpoint lower (s : string) : string :=
  match s with
  | EmptyString => EmptyString
  | String c rest => String (lower_ascii c) (lower rest)
  end.

(** [str.isspace] on the ASCII range: the space, tab to carriage return,
    and the four separators 28 to 31. *)
Definition is_space (c : ascii) : bool :=
  let n := nat_of_ascii c in
  (n =? 32)%nat || ((9 <=? n)%nat && (n <=? 13)%nat)
  || ((28 <=? n)%nat && (n <=? 31)%nat).

Fixpoint lstrip (s : string) : string :=
  match s with
  | String c rest => if is_space c then lstrip rest else s
  | EmptyString => EmptyString
  end.

Fixpoint rev_string (acc s : string) : string :=
  match s with
  | EmptyString => acc
  | String c rest => rev_string (String c acc) rest
  end.

(** [s.strip()] on text in the ASCII range. *)
Definition strip (s : string) : string :=
  rev_string "" (lstrip (rev_string "" (lstrip s))).

(** [s.split(':', 1)[1]]: the text after the first colon, when there is
    one. *)
Fixpoint after_colon (s : string) : option string :=
  match s with
  | EmptyString => None
  | String c rest => if Ascii.eqb c ":" then Some rest else after_colon rest
  end.

(** A non-negative number written with exactly [width] decimal digits, as
    the zero-padded [strftime] fields are. *)
Fixpoint zfill (width : nat) (n : Z) : string :=
  match width with
  | O => ""
  | S w => zfill w (n / 10) ++ String (ascii_of_nat (48 + Z.to_nat (n mod 10))) ""
  end.

(** [ts.strftime("%Y-%m-%d")] and [ts.strftime("%H:%M:%S.%f")], for years
    of four digits: an earlier year is written by the C library without
    leading zeros. *)
Definition strftime_date (ts : datetime) : string :=
  zfill 4 (year ts) ++ "-" ++ zfill 2 (month ts) ++ "-" ++ zfill 2 (day ts).

Definition strftime_time (ts : datetime) : string :=
  zfill 2 (hour ts) ++ ":" ++ zfill 2 (minute ts) ++ ":" ++ zfill 2 (second ts)
  ++ "." ++ zfill 6 (microsecond ts).

(** ** Decibel values *)

Inductive float := Fin (q : Q) | NaN.

(** Comparisons with a not-a-number operand are false. *)
Definition float_ge (x : float) (y : Q) : bool :=
  match x with Fin q => Qle_bool y q | NaN => false end.

Definition float_gt (x : float) (y : Q) : bool :=
  match x with Fin q => negb (Qle_bool q y) | NaN => false end.

Definition float_add (x : float) (y : Q) : float :=
  match x with Fin q => Fin (q + y) | NaN => NaN end.

(** Python's [round(x, 1)]: nearest tenth, ties to even.  The tenth is
    kept as the rational [k # 10]; the code keeps the double nearest to
    it. *)
Definition round1 (x : Q) : Q := round_half_even (x * 10) # 10.

(** SQLite's [ROUND(x, 1)]: nearest tenth, ties away from zero, on the
    rational value.  SQLite rounds through a decimal text of limited
    precision and gives the tenth back as a double. *)
Definition sql_round1 (x : Q) : Q :=
  (if Qle_bool 0 x then Qfloor (x * 10 + (1 # 2))
   else Qceiling (x * 10 - (1 # 2))) # 10.

(** The levels on which the two roundings above are used together.  Below
    10^14 in absolute value two neighbouring doubles are less than a
    twentieth apart, so distinct tenths are distinct doubles and [ROUND]
    gives back the tenth it is handed; from 10^15 on SQLite's [ROUND] loses
    the tenths digit that Python's [round] has kept.  Sound levels are a
    few hundred decibels at most. *)
Definition level_range : Q := 100000000000000.

Definition level_in_range (q : Q) : Prop :=
  (- level_range < q)%Q /\ (q < level_range)%Q.

(** ** Data frames

    A frame is kept row by row; every cell carries its column label.  A
    cell is a double, a timestamp or a text. *)

Inductive Cell :=
| VFloat (x : float)
| VTime (t : datetime)
| VText (s : string).

Definition Row := list (string * Cell).

Record DataFrame := mkDataFrame { columns : list string; rows : list Row }.

(** What [pd.read_csv] hands back: the header labels as written in the file
    and the numeric records below them. *)
Record RawFrame := mkRawFrame
  { raw_columns : list string; raw_rows : list (list float) }.

(** The cell of a row under a label. *)
Fixpoint get (label : string) (r : Row) : option Cell :=
  match r with
  | [] => None
  | (l, v) :: rest => if String.eqb label l then Some v else get label rest
  end.

(** One record, labelled; pandas fills a short record with NaN. *)
Fixpoint label_row (labels : list string) (cells : list float) : Row :=
  match labels with
  | [] => []
  | l :: ls => (l, VFloat (hd NaN cells)) :: label_row ls (tl cells)
  end.

(** [df[label] = values] for one row: an existing column is overwritten, a
    new one is appended on the right. *)
Fixpoint set_cell (label : string) (v : Cell) (r : Row) : Row :=
  match r with
  | [] => [(label, v)]
  | (l, w) :: rest =>
      if String.eqb label l then (l, v) :: rest
      else (l, w) :: set_cell label v rest
  end.

Definition set_label (label : string) (ls : list string) : list string :=
  if mem_string label ls then ls else ls ++ [label].

(** [df[label] = f(index)] *)
Fixpoint assign_indexed (label : string) (f : Z -> Cell) (i : Z) (rs : list Row)
  : list Row :=
  match rs with
  | [] => []
  | r :: rest => set_cell label (f i) r :: assign_indexed label f (i + 1) rest
  end.

(** [df[label] = v] with a scalar. *)
Definition assign (label : string) (v : Cell) (df : DataFrame) : DataFrame :=
  mkDataFrame (set_label label (columns df)) (map (set_cell label v) (rows df)).

(** [df.rename(columns={old: new}, inplace=True)] *)
Definition rename_label (old new l : string) : string :=
  if String.eqb l old then new else l.

Definition rename (old new : string) (df : DataFrame) : DataFrame :=
  mkDataFrame (map (rename_label old new) (columns df))
              (map (map (fun c => (rename_label old new (fst c), snd c))) (rows df)).

(** [df[[l1, ..., ln]]]: the listed columns, in the listed order.  pandas
    raises [KeyError] on an absent label; the script only asks for labels
    it has checked, and [select_row_labels] and [accepted_rows_labels]
    below show that none is lost. *)
Definition select_row (labels : list string) (r : Row) : Row :=
  flat_map (fun l => match get l r with Some v => [(l, v)] | None => [] end) labels.

Definition select (labels : list string) (df : DataFrame) : DataFrame :=
  mkDataFrame labels (map (select_row labels) (rows df)).

(** [df[mask]] where the mask is computed row by row. *)
Definition where_ (mask : Row -> bool) (df : DataFrame) : DataFrame :=
  mkDataFrame (columns df) (filter mask (rows df)).

(** [df.empty] for a frame that has columns. *)
Definition empty (df : DataFrame) : bool :=
  match rows df with [] => true | _ => false end.

(** [series >= limit] at one row. *)
Definition cell_ge (c : option Cell) (limit : Q) : bool :=
  match c with
  | Some (VFloat x) => float_ge x limit
  | _ => false
  end.

(** ** Configuration of [build_database.py] *)

Definition REQUIRED_CAL_FILE : string := "7097828_90deg.txt".
(** [time_per_sample = 0.1706666667], as the decimal that is written; the
    code works with the double nearest to it. *)
Definition time_per_sample : Q := 1706666667 # 10000000000.
Definition MIN_SPL_LIMIT : Q := 50.

(** ** The store *)

(** A row of [spl_data]; every column is nullable.  The [timestamp] text is
    the ['%Y-%m-%d %H:%M:%S.%f'] rendering of the instant kept here, which
    [strptime] with the same format reads back. *)
Record SplRow := mkSplRow
  { spl_timestamp : option datetime;
    spl_lceq : option Q;
    spl_lcs : option Q;
    spl_lceq1m : option Q;
    spl_lceq10m : option Q;
    spl_lzpeak : option Q;
    spl_source : option string;
    spl_location : option string }.

(** A row of [sessions]. *)
Record SessionRow := mkSessionRow
  { s_session : string;
    s_date : string;
    s_time : string;
    s_lceq : Q;
    s_source : option string;
    s_plot : option string;
    s_location : option string }.

Record Database := mkDatabase
  { sessions : list SessionRow;
    spl_data : list SplRow;
    processed_files : list (string * string) }.

(** How a frame cell is bound to a REAL, TEXT or timestamp column; NaN and
    a column the frame does not have are stored as NULL. *)
Definition sql_real (c : option Cell) : option Q :=
  match c with Some (VFloat (Fin q)) => Some q | _ => None end.

Definition sql_text (c : option Cell) : option string :=
  match c with Some (VText s) => Some s | _ => None end.

Definition sql_timestamp (c : option Cell) : option datetime :=
  match c with Some (VTime t) => Some t | _ => None end.

(** [frame.to_sql('spl_data', conn, if_exists='append', index=False)]: each
    table column takes the frame column of the same name. *)
Definition to_sql_row (r : Row) : SplRow :=
  {| spl_timestamp := sql_timestamp (get "timestamp" r);
     spl_lceq := sql_real (get "lceq" r);
     spl_lcs := sql_real (get "lcs" r);
     spl_lceq1m := sql_real (get "lceq1m" r);
     spl_lceq10m := sql_real (get "lceq10m" r);
     spl_lzpeak := sql_real (get "lzpeak" r);
     spl_source := sql_text (get "source" r);
     spl_location := sql_text (get "location" r) |}.

Definition to_sql (df : DataFrame) (db : Database) : Database :=
  mkDatabase (sessions db) (spl_data db ++ map to_sql_row (rows df))
             (processed_files db).

(** ** Ingestion ([build_database.py], first half) *)

(** A log file as the directory walk yields it: its path [fp], its base
    name [fn], and its bytes. *)
Record File := mkFile { fp : string; fn : string; bytes : list Byte.byte }.

(** The [sep] argument chosen for [read_csv]: a comma or the regular
    expression [\s+]. *)
Inductive Sep := Comma | Whitespace.

(** The lines the script prints while it walks the files. *)
Inductive Message :=
| Processing (name : string)
| AlreadyProcessed
| InvalidFile
| FailedToParse (name : string)
| MissingColumns (name : string)
| AllBelowLimit (name : string)
| Inserted (name : string).

(** The state one run threads through its file loop: the open database,
    the [bad_files] list, [processed_count] and what was printed. *)
Record Run := mkRun
  { db : Database;
    bad_files : list string;
    processed_count : nat;
    stdout : list Message }.

Definition start_run (d : Database) : Run := mkRun d [] 0 [].

Definition say (m : Message) (st : Run) : Run :=
  mkRun (db st) (bad_files st) (processed_count st) (stdout st ++ [m]).

Definition log_bad (path : string) (st : Run) : Run :=
  mkRun (db st) (bad_files st ++ [path]) (processed_count st) (stdout st).

(** [SELECT 1 FROM processed_files WHERE md5sum = ?] returned a row. *)
Definition already_processed (md5 : string) (d : Database) : bool :=
  existsb (fun rec => String.eqb (fst rec) md5) (processed_files d).

(** [INSERT INTO processed_files(md5sum, source) VALUES (?, ?)] *)
Definition insert_processed (md5 path : string) (d : Database) : Database :=
  mkDatabase (sessions d) (spl_data d) (processed_files d ++ [(md5, path)]).

(** The plausibility mask of lines 215-220. *)
Definition plausible_row (r : Row) : bool :=
  cell_ge (get "lcs" r) MIN_SPL_LIMIT
  && cell_ge (get "lceq" r) MIN_SPL_LIMIT
  && cell_ge (get "lceq1m" r) MIN_SPL_LIMIT
  && cell_ge (get "lceq10m" r) MIN_SPL_LIMIT.

Section Ingestion.

(** The library calls the script makes on a file, as functions of its
    bytes: [hashlib.md5(...).hexdigest()], [open(fp, 'r',
    encoding='utf-8').readlines()] and [pd.read_csv(fp, skiprows=n,
    sep=delim, engine='python')]; [None] stands for a raised exception.
    [strptime s] is [datetime.strptime(s, "%d/%m/%Y %I:%M:%S %p")]. *)
Variable md5_hexdigest : list Byte.byte -> string.
Variable readlines : list Byte.byte -> option (list string).
Variable read_csv : list Byte.byte -> nat -> Sep -> option RawFrame.
Variable strptime : string -> option datetime.

Definition file_md5sum (f : File) : string := md5_hexdigest (bytes f).

(** [is_valid_rew_file]: any exception answers [False]. *)
Definition is_valid_rew_file (f : File) : bool :=
  match readlines (bytes f) with
  | None => false
  | Some lines =>
      let head := firstn 15 lines in
      if existsb (contains "VirtualMic.txt") head then false
      else if existsb (fun l => contains "LAS" l || contains "LAeq" l) head
      then false
      else
        match lines with
        | [] => false
        | first :: _ =>
            prefix "SPL log data saved by REW" first
            && existsb (contains ("Mic/meter cal: " ++ REQUIRED_CAL_FILE)) head
            && existsb (contains "LCS") head
        end
  end.

(** [extract_location]: any exception answers ['Balcony']. *)
Definition extract_location (f : File) : string :=
  match readlines (bytes f) with
  | None => "Balcony"
  | Some lines =>
      match nth_error lines 1 with
      | None => "Balcony"
      | Some line =>
          let notes := lower line in
          if negb (contains "note" notes) then "Balcony"
          else if existsb (fun key => contains key notes)
                    ["nightclub"; "prohibition"; "club"; "site"]
          then "Nightclub"
          else "Balcony"
      end
  end.

(** The position of the first line that mentions [Time[s]], or 8. *)
Fixpoint find_data_start (i : nat) (lines : list string) : nat :=
  match lines with
  | [] => 8%nat
  | l :: rest => if contains "Time[s]" l then i else find_data_start (S i) rest
  end.

(** [parse_header_and_data]; [None] when it raises. *)
Definition parse_header_and_data (f : File) : option DataFrame :=
  match readlines (bytes f) with
  | None => None
  | Some lines =>
      match find (prefix "Date:") lines with
      | None => None
      | Some date_line =>
          match after_colon date_line with
          | None => None
          | Some rest =>
              match strptime (strip rest) with
              | None => None
              | Some start_dt =>
                  let data_start := find_data_start 0 lines in
                  match nth_error lines (data_start + 1) with
                  | None => None
                  | Some first_record =>
                      let delim :=
                        if contains "," first_record then Comma else Whitespace in
                      match read_csv (bytes f) data_start delim with
                      | None => None
                      | Some raw =>
                          let labels :=
                            map (fun c => lower (strip c)) (raw_columns raw) in
                          if negb (mem_string "lcs" labels)
                             || negb (mem_string "lceq" labels)
                          then None
                          else
                            let elapsed i := (inject_Z i * time_per_sample)%Q in
                            let rs := map (label_row labels) (raw_rows raw) in
                            let rs :=
                              assign_indexed "elapsedseconds"
                                (fun i => VFloat (Fin (elapsed i))) 0 rs in
                            let rs :=
                              assign_indexed "datetime"
                                (fun i => VTime (add_seconds start_dt (elapsed i)))
                                0 rs in
                            Some (mkDataFrame
                                    (set_label "datetime"
                                       (set_label "elapsedseconds" labels))
                                    rs)
                      end
                  end
              end
          end
      end
  end.

(** The body of the file loop, lines 190-232, for one file. *)
Definition ingest_file (st : Run) (f : File) : Run :=
  let st := say (Processing (fn f)) st in
  let md5 := file_md5sum f in
  if already_processed md5 (db st) then say AlreadyProcessed st
  else if negb (is_valid_rew_file f) then log_bad (fp f) (say InvalidFile st)
  else
    match parse_header_and_data f with
    | None => log_bad (fp f) (say (FailedToParse (fn f)) st)
    | Some df =>
        if negb (mem_string "lceq1m" (columns df))
           || negb (mem_string "lceq10m" (columns df))
           || negb (mem_string "lzpeak" (columns df))
        then say (MissingColumns (fn f)) st
        else
          let location := extract_location f in
          let df := rename "datetime" "timestamp" df in
          let spl_rows :=
            select ["timestamp"; "lceq"; "lceq1m"; "lceq10m"; "lcs"] df in
          let spl_rows := where_ plausible_row spl_rows in
          if empty spl_rows then say (AllBelowLimit (fn f)) st
          else
            let spl_rows := assign "source" (VText (fp f)) spl_rows in
            let spl_rows := assign "location" (VText location) spl_rows in
            (* line 227 turns the timestamps into their text form, which
               is how [spl_timestamp] keeps them *)
            let d := to_sql spl_rows (db st) in
            let d := insert_processed md5 (fp f) d in
            say (Inserted (fn f))
                (mkRun d (bad_files st) (S (processed_count st)) (stdout st))
    end.

(** The whole file loop, in the order the walk yields the files. *)
Definition ingest_files (st : Run) (files : list File) : Run :=
  fold_left ingest_file files st.

(** The bad-files report after the loop: written only when [bad_files]
    is non-empty, otherwise the file on disk is left as it was. *)
Definition bad_files_report (previous : option (list string)) (st : Run)
  : option (list string) :=
  match bad_files st with
  | [] => previous
  | _ => Some (bad_files st)
  end.

(** What the loop body decides about a file that is not yet in
    [processed_files]: the four ways it is turned away, or the frame it
    hands to [to_sql]. *)
Inductive Verdict :=
  | Invalid
  | Unparsed
  | Incomplete
  | Implausible
  | Accepted (frame : DataFrame).

Definition lacks_extended (df : DataFrame) : bool :=
  negb (mem_string "lceq1m" (columns df))
  || negb (mem_string "lceq10m" (columns df))
  || negb (mem_string "lzpeak" (columns df)).

Definition examine (f : File) : Verdict :=
  if negb (is_valid_rew_file f) then Invalid
  else
    match parse_header_and_data f with
    | None => Unparsed
    | Some df =>
        if lacks_extended df then Incomplete
        else
          let spl_rows :=
            where_ plausible_row
              (select ["timestamp"; "lceq"; "lceq1m"; "lceq10m"; "lcs"]
                 (rename "datetime" "timestamp" df)) in
          if empty spl_rows then Implausible
          else
            Accepted
              (assign "location" (VText (extract_location f))
                 (assign "source" (VText (fp f)) spl_rows))
    end.

Definition accepts (f : File) : bool :=
  match examine f with Accepted _ => true | _ => false end.

End Ingestion.

(** ** Session tagging ([build_database.py], second half) *)

(** A loop that stops at the first exception. *)
Fixpoint foldM {A S : Type} (f : S -> A -> option S) (l : list A) (s : S)
  : option S :=
  match l with
  | [] => Some s
  | a :: rest =>
      match f s a with
      | Some s' => foldM f rest s'
      | None => None
      end
  end.

(** The tuple [(session, date, time, lceq, source)]. *)
Definition Key := (string * string * string * Q * option string)%type.

Definition option_string_eqb (a b : option string) : bool :=
  match a, b with
  | Some x, Some y => String.eqb x y
  | None, None => true
  | _, _ => false
  end.

(** [==] on two such tuples. *)
Definition key_eqb (a b : Key) : bool :=
  let '(s1, d1, t1, q1, o1) := a in
  let '(s2, d2, t2, q2, o2) := b in
  String.eqb s1 s2 && String.eqb d1 d2 && String.eqb t1 t2
  && Qeq_bool q1 q2 && option_string_eqb o1 o2.

(** [key in a_set] *)
Definition key_in (k : Key) (keys : list Key) : bool := existsb (key_eqb k) keys.

(** [SELECT session, date, time, ROUND(lceq,1), source FROM sessions] *)
Definition stored_key (r : SessionRow) : Key :=
  (s_session r, s_date r, s_time r, sql_round1 (s_lceq r), s_source r).

Definition existing_session_keys (d : Database) : list Key :=
  map stored_key (sessions d).

(** The key a prepared row was built from: its first five fields. *)
Definition key_of (r : SessionRow) : Key :=
  (s_session r, s_date r, s_time r, s_lceq r, s_source r).

(** The tuple appended to [session_data]: the key fields, a NULL plot and
    the location. *)
Definition prepared_row (k : Key) (location : option string) : SessionRow :=
  let '(label, date_key, time_key, lceq_rounded, source) := k in
  mkSessionRow label date_key time_key lceq_rounded source None location.

(** The tagging state: the [seen] set and the [session_data] list. *)
Definition Tagging := (list Key * list SessionRow)%type.

(** The body of the inner loop (lines 264-272) for one window and one
    stored reading.  [strptime] of a NULL timestamp and [round] of a NULL
    level raise. *)
Definition tag (existing : list Key) (sd : SessionDef) (acc : Tagging)
  (row : SplRow) : option Tagging :=
  let '(session_label, wd, start_time, end_time) := sd in
  match spl_timestamp row with
  | None => None
  | Some ts =>
      if session_includes ts wd start_time end_time then
        match spl_lceq row with
        | None => None
        | Some lceq =>
            let date_key := strftime_date ts in
            let time_key := strftime_time ts in
            let lceq_rounded := round1 lceq in
            let row_key :=
              (session_label, date_key, time_key, lceq_rounded, spl_source row) in
            if negb (key_in row_key (fst acc)) && negb (key_in row_key existing)
            then Some (row_key :: fst acc,
                       (snd acc ++ [prepared_row row_key (spl_location row)])%list)
            else Some acc
        end
      else Some acc
  end.

(** The two nested loops over the windows and over all stored readings. *)
Definition tag_sessions (windows : list SessionDef) (d : Database)
  : option Tagging :=
  foldM (fun acc sd => foldM (tag (existing_session_keys d) sd) (spl_data d) acc)
        windows ([], []).

(** The rows the run prepares for insertion, for the script's own window
    list. *)
Definition session_data (d : Database) : option (list SessionRow) :=
  option_map snd (tag_sessions SESSIONS d).

(** [UNIQUE(session, date, time, lceq, source)]: two rows collide when all
    five columns are equal; a NULL equals nothing. *)
Definition collides (a b : SessionRow) : bool :=
  String.eqb (s_session a) (s_session b)
  && String.eqb (s_date a) (s_date b)
  && String.eqb (s_time a) (s_time b)
  && Qeq_bool (s_lceq a) (s_lceq b)
  && match s_source a, s_source b with
     | Some x, Some y => String.eqb x y
     | _, _ => false
     end.

(** [INSERT OR IGNORE INTO sessions ...] for one row, then for the list. *)
Definition insert_or_ignore (table : list SessionRow) (r : SessionRow)
  : list SessionRow :=
  if existsb (collides r) table then table else table ++ [r].

Definition insert_sessions (data : list SessionRow) (d : Database) : Database :=
  mkDatabase (fold_left insert_or_ignore data (sessions d))
             (spl_data d) (processed_files d).

(** One pass of the tagging half over a given window list: the store after
    it and the rows it prepared. *)
Definition tagging_pass (windows : list SessionDef) (d : Database)
  : option (Database * list SessionRow) :=
  match tag_sessions windows d with
  | None => None
  | Some (_, data) => Some (insert_sessions data d, data)
  end.

(** Every prepared row is new: its key is not stored and not among the
    keys of the rows prepared before it. *)
Fixpoint all_new (existing earlier : list Key) (data : list SessionRow) : Prop :=
  match data with
  | [] => True
  | r :: rest =>
      key_in (key_of r) existing = false
      /\ key_in (key_of r) earlier = false
      /\ all_new existing (key_of r :: earlier) rest
  end.

(** The key the loop body would build for a window and a reading: [None]
    when the body raises, [Some None] when the reading is outside the
    window. *)
Definition candidate (sd : SessionDef) (row : SplRow) : option (option Key) :=
  let '(session_label, wd, start_time, end_time) := sd in
  match spl_timestamp row with
  | None => None
  | Some ts =>
      if session_includes ts wd start_time end_time then
        match spl_lceq row with
        | None => None
        | Some lceq =>
            Some (Some (session_label, strftime_date ts, strftime_time ts,
                        round1 lceq, spl_source row))
        end
      else Some None
  end.

(** ** Breach evaluation ([spl_session_summary.py]) *)

Definition GAIN_TO_FACADE : Q := (189 # 10) * 0.
Definition LIMIT_DAY : Q := 90.
Definition LIMIT_NIGHT : Q := 80.
(** [timedelta(minutes=1.5)], in seconds. *)
Definition BREACH_WINDOW : Q := (3 # 2) * 60.

(** A row of the frame read from [spl_data]. *)
Record Reading := mkReading
  { timestamp : datetime;
    lcs : float;
    lceq : float;
    lceq1m : float;
    lceq10m : float;
    location : option string }.

Definition float_of_sql (v : option Q) : float :=
  match v with Some q => Fin q | None => NaN end.

(** [pd.read_sql_query("SELECT timestamp, lcs, lceq, lceq1m, lceq10m,
    location FROM spl_data", conn, parse_dates=['timestamp'])].  A NULL
    timestamp is read as NaT, which is inside no window, so such a row
    never reaches the later steps and is left out here. *)
Definition read_sql_query (d : Database) : list Reading :=
  flat_map
    (fun r =>
       match spl_timestamp r with
       | None => []
       | Some ts =>
           [mkReading ts (float_of_sql (spl_lcs r)) (float_of_sql (spl_lceq r))
              (float_of_sql (spl_lceq1m r)) (float_of_sql (spl_lceq10m r))
              (spl_location r)]
       end)
    (spl_data d).

(** Calendar dates, as [ts.date()], and their order. *)
Definition date := (Z * Z * Z)%type.

Definition date_of (ts : datetime) : date := (year ts, month ts, day ts).

Definition date_cmp (a b : date) : comparison :=
  let '(y1, m1, d1) := a in
  let '(y2, m2, d2) := b in
  lex (y1 ?= y2)%Z (lex (m1 ?= m2)%Z (d1 ?= d2)%Z).

Definition date_eqb (a b : date) : bool :=
  match date_cmp a b with Eq => true | _ => false end.

(** The order of [datetime] values. *)
Definition datetime_cmp (a b : datetime) : comparison :=
  lex (date_cmp (date_of a) (date_of b)) (time_cmp (dt_time a) (dt_time b)).

Definition datetime_min (a b : datetime) : datetime :=
  match datetime_cmp b a with Lt => b | _ => a end.

(** The distinct dates of a selection in increasing order: the group keys
    of [groupby]. *)
Fixpoint insert_date (d : date) (l : list date) : list date :=
  match l with
  | [] => [d]
  | x :: rest =>
      match date_cmp d x with
      | Lt => d :: l
      | Eq => l
      | Gt => x :: insert_date d rest
      end
  end.

Definition group_dates (sel : list Reading) : list date :=
  fold_right (fun r acc => insert_date (date_of (timestamp r)) acc) [] sel.

(** [str(sess_date)] *)
Definition date_str (d : date) : string :=
  let '(y, m, dd) := d in zfill 4 y ++ "-" ++ zfill 2 m ++ "-" ++ zfill 2 dd.

(** A reading mapped to a session instance: the row with its [Session]
    and [Epoch] entries. *)
Record Tagged := mkTagged
  { reading : Reading; Session : string; Epoch : datetime }.

(** The rows one window contributes (lines 91-98). *)
Definition window_rows (df : list Reading) (sd : SessionDef) : list Tagged :=
  let '(label, wd, start, end_) := sd in
  let sel := filter (fun r => session_includes (timestamp r) wd start end_) df in
  flat_map
    (fun sess_date =>
       let daily_group :=
         filter (fun r => date_eqb (date_of (timestamp r)) sess_date) sel in
       match daily_group with
       | [] => []
       | first :: others =>
           let epoch :=
             fold_left datetime_min (map timestamp others) (timestamp first) in
           map (fun r => mkTagged r (date_str sess_date ++ "_" ++ label) epoch)
               daily_group
       end)
    (group_dates sel).

(** [ts.strftime('%A')] *)
Definition day_name (ts : datetime) : string :=
  nth (Z.to_nat (weekday ts))
      ["Monday"; "Tuesday"; "Wednesday"; "Thursday"; "Friday"; "Saturday"; "Sunday"]
      "".

(** A row of [all_df] with the columns added on lines 102-119. *)
Record Evaluated := mkEvaluated
  { tagged : Tagged;
    Est_LCeq : float;
    Day : string;
    Limit : Q;
    Breached : bool }.

Definition limit_for (ts : datetime) : Q :=
  if is_day ts then LIMIT_DAY else LIMIT_NIGHT.

Definition evaluate_row (t : Tagged) : Evaluated :=
  let est := lceq (reading t) in
  let limit := limit_for (timestamp (reading t)) in
  mkEvaluated t est (day_name (timestamp (reading t))) limit (float_gt est limit).

(** What one run of the script leaves behind: the evaluated frame, the two
    lists written to [Session_Max_Summary.csv] and [BreachesBalcony.csv],
    and the two counts of the batch record. *)
Record Report := mkReport
  { all_df : list Evaluated;
    summary : list Row;
    breaches : list Row;
    days_processed : nat;
    sessions_processed : nat }.

Definition string_nunique (l : list string) : nat :=
  List.length (nodup string_dec l).

(** The script from line 84 on.  With no reading inside any window the
    frame built on line 101 has no [lceq] column and line 102 raises. *)
Definition evaluate (df : list Reading) : option Report :=
  let rows := flat_map (window_rows df) SESSIONS in
  match rows with
  | [] => None
  | _ =>
      let all_df := map evaluate_row rows in
      let summary : list Row := [] in
      let breaches : list Row := [] in
      Some (mkReport all_df summary breaches
              (string_nunique
                 (map (fun e => date_str (date_of (timestamp (reading (tagged e)))))
                      all_df))
              (string_nunique (map (fun e => Session (tagged e)) all_df)))
  end.

(** The session instances of an evaluated frame and the rows of one. *)
Definition instance_rows (session : string) (rows : list Evaluated)
  : list Evaluated :=
  filter (fun e => String.eqb (Session (tagged e)) session) rows.

Definition breach_count (rows : list Evaluated) : nat :=
  List.length (filter Breached rows).

(** ** Notions used in the statements *)

(** A stored level that is present and not below a limit. *)
Definition at_least (limit : Q) (v : option Q) : Prop :=
  match v with Some q => (limit <= q)%Q | None => False end.

Definition above_floor (r : SplRow) : Prop :=
  at_least MIN_SPL_LIMIT (spl_lcs r)
  /\ at_least MIN_SPL_LIMIT (spl_lceq r)
  /\ at_least MIN_SPL_LIMIT (spl_lceq1m r)
  /\ at_least MIN_SPL_LIMIT (spl_lceq10m r).

(** The labels of the frame handed to [to_sql]. *)
Definition inserted_columns : list string :=
  ["timestamp"; "lceq"; "lceq1m"; "lceq10m"; "lcs"; "source"; "location"].

(** A stored level produced by [round(x, 1)] from a level in range. *)
Definition rounded (q : Q) : Prop := exists x, level_in_range x /\ q = round1 x.

(** A reading whose level, if it has one, is in range; and a store all of
    whose readings are. *)
Definition reading_in_range (row : SplRow) : Prop :=
  forall q, spl_lceq row = Some q -> level_in_range q.

Definition readings_in_range (d : Database) : Prop :=
  Forall reading_in_range (spl_data d).

(** What holds of the tagging state all along a pass: [seen] holds the
    keys of the prepared rows, each of them was new, and each level is a
    rounded one. *)
Definition tagging_ok (existing : list Key) (acc : Tagging) : Prop :=
  fst acc = rev (map key_of (snd acc))
  /\ all_new existing [] (snd acc)
  /\ Forall (fun r => rounded (s_lceq r)) (snd acc).

(** A (window, reading) pair is covered when the loop body does not raise
    on it and the key it builds, if any, is in [seen] or stored. *)
Definition covered (existing : list Key) (acc : Tagging)
  (p : SessionDef * SplRow) : Prop :=
  match candidate (fst p) (snd p) with
  | None => False
  | Some None => True
  | Some (Some k) => key_in k (fst acc) = true \/ key_in k existing = true
  end.

(** ** A small world for the examples

    Three log files and a stand-in for each library call, defined just far
    enough to read them. *)

Definition newline : string := String (ascii_of_nat 10) "".

Definition unlines (ls : list string) : string :=
  fold_right (fun l acc => l ++ newline ++ acc) "" ls.

Definition rew_header : list string :=
  [ "SPL log data saved by REW V5.31.3";
    "Note: balcony rail";
    "Source: UMIK-1";
    "Mic/meter cal: 7097828_90deg.txt";
    "Date: 02/05/2025 11:30:00 PM";
    "Weighting: C" ].

Definition full_log : string :=
  unlines (rew_header
           ++ [ "Time[s], LCS, LCeq, LCeq1m, LCeq10m, LZpeak";
                "0.0, 61.0, 62.5, 62.0, 61.5, 80.1";
                "0.2, 45.0, 62.5, 62.0, 61.5, 70.3";
                "0.3, 70.2, 81.2, 64.0, 61.6, 95.0" ])%list.

Definition short_log : string :=
  unlines (rew_header
           ++ [ "Time[s], LCS, LCeq";
                "0.0, 61.0, 62.5";
                "0.2, 63.0, 62.7" ])%list.

Definition quiet_log : string :=
  unlines (rew_header
           ++ [ "Time[s], LCS, LCeq, LCeq1m, LCeq10m, LZpeak";
                "0.0, 41.0, 42.5, 42.0, 41.5, 60.1";
                "0.2, 45.0, 42.5, 42.0, 41.5, 60.3" ])%list.

Definition full_file : File :=
  mkFile "20250502/night.txt" "night.txt" (list_byte_of_string full_log).
Definition full_copy : File :=
  mkFile "20250503/copy/night (1).txt" "night (1).txt"
         (list_byte_of_string full_log).
Definition short_file : File :=
  mkFile "20250502/old.txt" "old.txt" (list_byte_of_string short_log).
Definition quiet_file : File :=
  mkFile "20250502/quiet.txt" "quiet.txt" (list_byte_of_string quiet_log).

(** A checksum standing in for MD5. *)
Definition toy_md5 (b : list Byte.byte) : string :=
  zfill 10
    (fold_left (fun acc x => (acc * 31 + Z.of_N (Byte.to_N x)) mod 4294967296)
               b 7).

(** The text cut after each line feed, the line feed kept. *)
Fixpoint split_lines (cur s : string) : list string :=
  match s with
  | EmptyString =>
      match cur with EmptyString => [] | _ => [rev_string "" cur] end
  | String c rest =>
      if Ascii.eqb c (ascii_of_nat 10)
      then rev_string "" (String c cur) :: split_lines "" rest
      else split_lines (String c cur) rest
  end.

Definition toy_readlines (b : list Byte.byte) : option (list string) :=
  Some (split_lines "" (string_of_list_byte b)).

Definition toy_read_csv (b : list Byte.byte) (skiprows : nat) (sep : Sep)
  : option RawFrame :=
  let text := string_of_list_byte b in
  let wide := ["Time[s]"; " LCS"; " LCeq"; " LCeq1m"; " LCeq10m"; " LZpeak"] in
  match skiprows, sep with
  | 6%nat, Comma =>
      if String.eqb text full_log then
        Some (mkRawFrame wide
                [ [Fin 0; Fin 61; Fin (625 # 10); Fin 62; Fin (615 # 10); Fin (801 # 10)];
                  [Fin (2 # 10); Fin 45; Fin (625 # 10); Fin 62; Fin (615 # 10); Fin (703 # 10)];
                  [Fin (3 # 10); Fin (702 # 10); Fin (812 # 10); Fin 64; Fin (616 # 10); Fin 95] ])
      else if String.eqb text short_log then
        Some (mkRawFrame ["Time[s]"; " LCS"; " LCeq"]
                [ [Fin 0; Fin 61; Fin (625 # 10)];
                  [Fin (2 # 10); Fin 63; Fin (627 # 10)] ])
      else if String.eqb text quiet_log then
        Some (mkRawFrame wide
                [ [Fin 0; Fin 41; Fin (425 # 10); Fin 42; Fin (415 # 10); Fin (601 # 10)];
                  [Fin (2 # 10); Fin 45; Fin (425 # 10); Fin 42; Fin (415 # 10); Fin (603 # 10)] ])
      else None
  | _, _ => None
  end.

Definition toy_strptime (s : string) : option datetime :=
  if String.eqb s "02/05/2025 11:30:00 PM" then Some friday_2330 else None.

(** The frame the loop hands to [to_sql] for [night.txt]: the second
    record, whose [lcs] is 45.0, has been masked out. *)
Definition full_frame : DataFrame :=
  mkDataFrame
    ["timestamp"; "lceq"; "lceq1m"; "lceq10m"; "lcs"; "source"; "location"]
    [ [ ("timestamp", VTime (mkdatetime 2025 5 2 23 30 0 0));
        ("lceq", VFloat (Fin (625 # 10))); ("lceq1m", VFloat (Fin (62 # 1)));
        ("lceq10m", VFloat (Fin (615 # 10))); ("lcs", VFloat (Fin (61 # 1)));
        ("source", VText "20250502/night.txt"); ("location", VText "Balcony") ];
      [ ("timestamp", VTime (mkdatetime 2025 5 2 23 30 0 341333));
        ("lceq", VFloat (Fin (812 # 10))); ("lceq1m", VFloat (Fin (64 # 1)));
        ("lceq10m", VFloat (Fin (616 # 10))); ("lcs", VFloat (Fin (702 # 10)));
        ("source", VText "20250502/night.txt"); ("location", VText "Balcony") ] ].

Definition toy_ingest : Run -> File -> Run :=
  ingest_file toy_md5 toy_readlines toy_read_csv toy_strptime.

Definition empty_db : Database := mkDatabase [] [] [].

(** A store with two readings, for the tagging and evaluation examples. *)
Definition two_readings : Database :=
  mkDatabase []
    [ mkSplRow (Some friday_2330) (Some (95 # 1)) (Some (90 # 1)) (Some (90 # 1))
        (Some (90 # 1)) None (Some "20250502/night.txt") (Some "Balcony");
      mkSplRow (Some wednesday_0200) (Some (812 # 10)) (Some (80 # 1))
        (Some (80 # 1)) (Some (80 # 1)) None (Some "20250507/late.txt")
        (Some "Balcony") ]
    [].

(** A reading at a night instant (Wednesday 02:00) with a given LCeq, as a
    row of a session instance. *)
Definition night_reading (level : Q) : Tagged :=
  mkTagged (mkReading wednesday_0200 (Fin 75) (Fin level) (Fin 75) (Fin 75)
              (Some "Balcony"))
           "2025-05-07_Wednesday" wednesday_0200.

(** ** Further notions and examples *)

(** The windows of [SESSIONS] a timestamp falls in. *)
Definition matching_sessions (ts : datetime) : list SessionDef :=
  filter (fun sd => let '(_, wd, start, end_) := sd in
                    session_includes ts wd start end_)
         SESSIONS.

(** A log captured from a loopback source, and a log without a [Date:]
    line. *)
Definition virtual_log : string :=
  unlines [ "SPL log data saved by REW V5.31.3";
            "Note: club, soundcard loopback";
            "Mic/meter cal: VirtualMic.txt";
            "Date: 02/05/2025 11:30:00 PM";
            "Time[s], LCS, LCeq";
            "0.0, 61.0, 62.5" ].

Definition undated_log : string :=
  unlines [ "SPL log data saved by REW V5.31.3";
            "Note: club";
            "Mic/meter cal: 7097828_90deg.txt";
            "Time[s], LCS, LCeq";
            "0.0, 61.0, 62.5" ].

Definition virtual_file : File :=
  mkFile "20250502/loop.txt" "loop.txt" (list_byte_of_string virtual_log).
Definition undated_file : File :=
  mkFile "20250502/undated.txt" "undated.txt" (list_byte_of_string undated_log).

(** A prepared row is the tag of a reading for a window: the reading has
    a timestamp inside the window and a level, and the row repeats the
    window's label, the date and time texts of the timestamp, the rounded
    level, the source and the location, with no plot. *)
Definition tagged_from (sd : SessionDef) (row : SplRow) (r : SessionRow) : Prop :=
  let '(label, wd, start, end_) := sd in
  exists ts level,
    spl_timestamp row = Some ts
    /\ spl_lceq row = Some level
    /\ session_includes ts wd start end_ = true
    /\ r = mkSessionRow label (strftime_date ts) (strftime_time ts)
             (round1 level) (spl_source row) None (spl_location row).

Definition friday_0100 := at_ 2025 5 2 1 0.
Definition thursday_235930 := mkdatetime 2025 5 1 23 59 30 0.

(** A store with one reading whose timestamp is NULL. *)
Definition unstamped_reading : Database :=
  mkDatabase []
    [ mkSplRow None (Some (95 # 1)) (Some (90 # 1)) (Some (90 # 1))
        (Some (90 # 1)) None (Some "20250502/night.txt") (Some "Balcony") ]
    [].

(** A reading is inside a window. *)
Definition inside (sd : SessionDef) (r : Reading) : bool :=
  let '(_, wd, start, end_) := sd in
  session_includes (timestamp r) wd start end_.

(** [a <= b] on [datetime] values. *)
Definition datetime_le (a b : datetime) : Prop := datetime_cmp a b <> Gt.

(** A log that ends with its column line, and a log with no column line at
    all. *)
Definition recordless_log : string :=
  unlines (rew_header ++ ["Time[s], LCS, LCeq"])%list.

Definition headless_log : string :=
  unlines (rew_header ++ ["0.0, 61.0, 62.5"; "0.2, 63.0, 62.7"])%list.

Definition recordless_file : File :=
  mkFile "20250502/norows.txt" "norows.txt" (list_byte_of_string recordless_log).
Definition headless_file : File :=
  mkFile "20250502/nocols.txt" "nocols.txt" (list_byte_of_string headless_log).

(** The calendar and clock fields are in the ranges Python's [datetime]
    keeps them in, with a year of four digits: before the year 1000 the C
    library's [%Y] writes the year without leading zeros. *)
Definition fields_in_range (ts : datetime) : Prop :=
  (1000 <= year ts <= 9999 /\ 1 <= month ts <= 12 /\ 1 <= day ts <= 31
   /\ 0 <= hour ts <= 23 /\ 0 <= minute ts <= 59 /\ 0 <= second ts <= 59
   /\ 0 <= microsecond ts <= 999999)%Z.

(** * Properties *)

Local Open Scope list_scope.

(** ** Calendar and window facts *)

Example weekdays_of_examples :
  map weekday [thursday_0030; friday_0030; friday_2330; saturday_0030;
               sunday_1100; wednesday_0200] = [3; 4; 4; 5; 6; 2]%Z.
Proof. reflexivity. Qed.

Lemma time_le_false_gt (a b : time) : time_le a b = false <-> time_gt a b = true.
Proof.
  unfold time_le, time_gt. destruct (time_cmp a b); split; congruence.
Qed.

(** On a window whose start is after its end, [session_includes] is the
    disjunction written in its [else] branch. *)
Lemma session_includes_wrapping (dt : datetime) (wd : Z) (start end_ : time) :
  time_gt start end_ = true ->
  session_includes dt wd start end_
  = ((weekday dt =? wd)%Z && time_ge (dt_time dt) start)
    || (((weekday dt + 1) mod 7 =? wd)%Z && time_le (dt_time dt) end_).
Proof.
  intros H. apply time_le_false_gt in H. unfold session_includes.
  now rewrite H.
Qed.

(** C1.  For the window (weekday 4, 23:00, 01:00) the code takes its
    midnight-wrapping branch, and there the second disjunct asks for
    [(weekday + 1) mod 7 = 4], which is Thursday: Friday 23:30 is inside and
    Saturday 02:00 is outside, but Saturday 00:30 is outside as well, while
    Thursday 00:30, the morning before the window opens, is inside. *)
Theorem C1_wrapping_window_matches_previous_morning :
  time_gt (time_hm 23 0) (time_hm 1 0) = true
  /\ (forall dt,
        session_includes dt 4 (time_hm 23 0) (time_hm 1 0)
        = ((weekday dt =? 4)%Z && time_ge (dt_time dt) (time_hm 23 0))
          || (((weekday dt + 1) mod 7 =? 4)%Z
              && time_le (dt_time dt) (time_hm 1 0)))
  /\ session_includes friday_2330 4 (time_hm 23 0) (time_hm 1 0) = true
  /\ session_includes saturday_0030 4 (time_hm 23 0) (time_hm 1 0) = false
  /\ session_includes saturday_0200 4 (time_hm 23 0) (time_hm 1 0) = false
  /\ session_includes thursday_0030 4 (time_hm 23 0) (time_hm 1 0) = true.
Proof.
  split; [reflexivity|]. split.
  - intros dt. now apply session_includes_wrapping.
  - repeat split; reflexivity.
Qed.

(** ** Day / night classification *)

Lemma weekday_range (ts : datetime) : (0 <= weekday ts < 7)%Z.
Proof. unfold weekday. apply Z.mod_pos_bound. lia. Qed.

(** C5.  [is_day] answers day exactly for Sunday to Thursday between
    10:00 and 23:59 (which is [time(23, 59)], 23:59:00) and for Friday and
    Saturday from 10:00 on or up to 01:00; every other instant is night.  Friday 00:30 is day, Friday 09:00
    night, Sunday 11:00 day and Wednesday 02:00 night. *)
Theorem C5_day_night_classification :
  (forall ts,
      let wd := weekday ts in
      let t := dt_time ts in
      is_day ts = true <->
      ((wd = 6 \/ wd = 0 \/ wd = 1 \/ wd = 2 \/ wd = 3)%Z
       /\ time_le (time_hm 10 0) t = true /\ time_le t (time_hm 23 59) = true)
      \/ ((wd = 4 \/ wd = 5)%Z
          /\ (time_le (time_hm 10 0) t = true \/ time_le t (time_hm 1 0) = true)))
  /\ (weekday friday_0030 = 4%Z /\ is_day friday_0030 = true)
  /\ (weekday friday_0900 = 4%Z /\ is_day friday_0900 = false)
  /\ (weekday sunday_1100 = 6%Z /\ is_day sunday_1100 = true)
  /\ (weekday wednesday_0200 = 2%Z /\ is_day wednesday_0200 = false).
Proof.
  split; [|repeat split; reflexivity].
  intros ts wd t. unfold is_day. fold wd. fold t.
  pose proof (weekday_range ts) as Hwd. fold wd in Hwd.
  assert (Hcase : (wd = 0 \/ wd = 1 \/ wd = 2 \/ wd = 3 \/ wd = 4 \/ wd = 5 \/ wd = 6)%Z)
    by lia.
  destruct (time_le (time_hm 10 0) t), (time_le t (time_hm 23 59)),
    (time_le t (time_hm 1 0));
    destruct Hcase as [E|[E|[E|[E|[E|[E|E]]]]]]; rewrite E; simpl;
    split; intros H; try discriminate; try reflexivity;
    try (left; repeat split; (lia || reflexivity));
    try (right; split; [lia | (left; reflexivity) || (right; reflexivity)]);
    try (destruct H as [[H1 [H2 H3]]|[H1 [H2|H2]]]; (lia || discriminate)).
Qed.

(** ** Breach evaluation *)

Lemma GAIN_TO_FACADE_zero : (GAIN_TO_FACADE == 0)%Q.
Proof. reflexivity. Qed.

Lemma float_gt_spec (x : float) (limit : Q) :
  float_gt x limit = true <-> exists q, x = Fin q /\ (limit < q)%Q.
Proof.
  destruct x as [q|]; simpl.
  - rewrite negb_true_iff. split.
    + intros H. exists q. split; [reflexivity|].
      apply Qnot_le_lt. intros Hle. apply Qle_bool_iff in Hle. congruence.
    + intros [q' [E Hlt]]. injection E as <-.
      destruct (Qle_bool q limit) eqn:Hb; [|reflexivity].
      apply Qle_bool_iff in Hb. exfalso. now apply (Qlt_not_le _ _ Hlt).
  - split; [discriminate|]. intros [q [E _]]. discriminate.
Qed.

(** C6.  The [Breached] column of a row is true exactly when the row's
    LCeq plus [GAIN_TO_FACADE] (which is [18.9 * 0]) is strictly above the
    row's limit, 90.0 for a day instant and 80.0 for a night one; at a
    night instant 81.2 is flagged and 79.9 is not. *)
Theorem C6_breach_iff_adjusted_level_exceeds_limit :
  (forall t : Tagged,
      Limit (evaluate_row t)
      = (if is_day (timestamp (reading t)) then LIMIT_DAY else LIMIT_NIGHT)
      /\ (Breached (evaluate_row t) = true <->
          exists q, lceq (reading t) = Fin q
                    /\ (Limit (evaluate_row t) < q + GAIN_TO_FACADE)%Q))
  /\ (LIMIT_DAY == 90 /\ LIMIT_NIGHT == 80)%Q
  /\ is_day (timestamp (reading (night_reading (812 # 10)))) = false
  /\ Breached (evaluate_row (night_reading (812 # 10))) = true
  /\ Breached (evaluate_row (night_reading (799 # 10))) = false.
Proof.
  split; [|repeat split; reflexivity].
  intros t. split; [reflexivity|].
  unfold evaluate_row; simpl. rewrite float_gt_spec.
  split; intros [q [E H]]; exists q; (split; [exact E|]).
  - rewrite GAIN_TO_FACADE_zero, Qplus_0_r. exact H.
  - rewrite GAIN_TO_FACADE_zero, Qplus_0_r in H. exact H.
Qed.

Lemma evaluate_lists_empty (df : list Reading) (rep : Report) :
  evaluate df = Some rep -> summary rep = [] /\ breaches rep = [].
Proof.
  unfold evaluate. destruct (flat_map (window_rows df) SESSIONS); [discriminate|].
  intros H. injection H as <-. split; reflexivity.
Qed.

(** C7.  The two lists the script writes as its summary and breach-event
    reports are created empty and never appended to.  For a store holding a
    Friday 23:30 reading of 95.0 dB, the session instance
    [2025-05-02_Friday_21-00] has one row and that row is a breach, yet the
    summary and the breach events written out have no row. *)
Theorem C7_summary_and_breach_reports_stay_empty :
  (forall df,
      match evaluate df with
      | Some rep => summary rep = [] /\ breaches rep = []
      | None => True
      end)
  /\ exists rep,
      evaluate (read_sql_query two_readings) = Some rep
      /\ List.length (instance_rows "2025-05-02_Friday_21-00" (all_df rep)) = 1%nat
      /\ breach_count (instance_rows "2025-05-02_Friday_21-00" (all_df rep)) = 1%nat
      /\ summary rep = []
      /\ breaches rep = [].
Proof.
  split.
  - intros df. destruct (evaluate df) as [rep|] eqn:E; [|exact I].
    now apply evaluate_lists_empty with df.
  - eexists. split; [reflexivity|]. repeat split; reflexivity.
Qed.

(** ** Frames *)

Lemma get_set_cell_other (l label : string) (v : Cell) (r : Row) :
  String.eqb label l = false -> get l (set_cell label v r) = get l r.
Proof.
  intros Hne. induction r as [|[l0 w] rest IH]; simpl.
  - rewrite String.eqb_sym, Hne. reflexivity.
  - destruct (String.eqb label l0) eqn:E; simpl.
    + apply String.eqb_eq in E. subst l0.
      rewrite String.eqb_sym, Hne. reflexivity.
    + destruct (String.eqb l l0); [reflexivity|exact IH].
Qed.

Lemma get_select_row_absent (l : string) (labels : list string) (r : Row) :
  mem_string l labels = false -> get l (select_row labels r) = None.
Proof.
  unfold select_row. induction labels as [|l0 ls IH]; simpl; intros H.
  - reflexivity.
  - apply orb_false_iff in H. destruct H as [Hl0 Hls].
    destruct (get l0 r); simpl.
    + rewrite Hl0. now apply IH.
    + now apply IH.
Qed.

Lemma cell_ge_at_least (c : option Cell) (limit : Q) :
  cell_ge c limit = true -> at_least limit (sql_real c).
Proof.
  destruct c as [[[q|]|t|s]|]; simpl; try discriminate.
  intros H. now apply Qle_bool_iff.
Qed.

(** A row that passed the mask, once [source] and [location] are set, is
    stored with all four levels at or above the floor and no [lzpeak]. *)
Lemma stored_row_above_floor (r : Row) (src loc : Cell) :
  plausible_row r = true ->
  above_floor (to_sql_row (set_cell "location" loc (set_cell "source" src r))).
Proof.
  unfold plausible_row. rewrite !andb_true_iff. intros [[[H1 H2] H3] H4].
  unfold above_floor, to_sql_row; simpl.
  rewrite !get_set_cell_other by reflexivity.
  repeat split; now apply cell_ge_at_least.
Qed.

Lemma stored_row_lzpeak_null (r : Row) (src loc : Cell) :
  spl_lzpeak
    (to_sql_row
       (set_cell "location" loc
          (set_cell "source" src
             (select_row ["timestamp"; "lceq"; "lceq1m"; "lceq10m"; "lcs"] r))))
  = None.
Proof.
  unfold to_sql_row; cbn [spl_lzpeak].
  rewrite !get_set_cell_other by reflexivity.
  rewrite get_select_row_absent by reflexivity. reflexivity.
Qed.

(** ** Frames are rectangular *)

Lemma get_label_row (l : string) (labels : list string) :
  forall cells, mem_string l labels = true -> get l (label_row labels cells) <> None.
Proof.
  unfold mem_string. induction labels as [|l0 ls IH]; intros cells H; simpl in *.
  - discriminate.
  - destruct (String.eqb l l0); [discriminate|]. now apply IH.
Qed.

Lemma get_set_cell_same (l : string) (v : Cell) (r : Row) :
  get l (set_cell l v r) <> None.
Proof.
  induction r as [|[l0 w] rest IH]; simpl.
  - rewrite String.eqb_refl. discriminate.
  - destruct (String.eqb l l0) eqn:E; simpl; rewrite E; [discriminate|exact IH].
Qed.

Lemma get_set_cell_kept (l label : string) (v : Cell) (r : Row) :
  get l r <> None -> get l (set_cell label v r) <> None.
Proof.
  intros H. destruct (String.eqb label l) eqn:E.
  - apply String.eqb_eq in E. subst. apply get_set_cell_same.
  - now rewrite get_set_cell_other.
Qed.

Lemma In_assign_indexed (label : string) (f : Z -> Cell) (rs : list Row) :
  forall i r,
    In r (assign_indexed label f i rs) ->
    exists r0 j, In r0 rs /\ r = set_cell label (f j) r0.
Proof.
  induction rs as [|a rest IH]; intros i r H; simpl in H; [destruct H|].
  destruct H as [<-|H].
  - exists a, i. split; [now left|reflexivity].
  - destruct (IH _ _ H) as [r0 [j [Hin E]]]. exists r0, j. split; [now right|exact E].
Qed.

Lemma mem_set_label (l x : string) (ls : list string) :
  mem_string l (set_label x ls) = mem_string l ls || String.eqb l x.
Proof.
  unfold set_label. destruct (mem_string x ls) eqn:E.
  - destruct (String.eqb l x) eqn:Elx; [|now rewrite orb_false_r].
    apply String.eqb_eq in Elx. subst. now rewrite E.
  - unfold mem_string. rewrite existsb_app. simpl. now rewrite orb_false_r.
Qed.

Lemma get_rename_new (old new : string) (r : Row) :
  get old r <> None ->
  get new (map (fun c => (rename_label old new (fst c), snd c)) r) <> None.
Proof.
  induction r as [|[l0 w] rest IH]; simpl; intros H; [exact H|].
  unfold rename_label at 1. rewrite (String.eqb_sym l0 old).
  destruct (String.eqb old l0).
  - rewrite String.eqb_refl. discriminate.
  - destruct (String.eqb new l0); [discriminate|now apply IH].
Qed.

Lemma get_rename_other (l old new : string) (r : Row) :
  String.eqb l old = false -> String.eqb l new = false ->
  get l (map (fun c => (rename_label old new (fst c), snd c)) r) = get l r.
Proof.
  intros Ho Hn. induction r as [|[l0 w] rest IH]; simpl; [reflexivity|].
  unfold rename_label at 1. destruct (String.eqb l0 old) eqn:E.
  - apply String.eqb_eq in E. subst l0. rewrite Hn, Ho. exact IH.
  - destruct (String.eqb l l0); [reflexivity|exact IH].
Qed.

(** [df[[...]]] on a row that has every requested label keeps them all, in
    the requested order. *)
Lemma select_row_labels (labels : list string) (r : Row) :
  (forall l, In l labels -> get l r <> None) ->
  map fst (select_row labels r) = labels.
Proof.
  unfold select_row. induction labels as [|l0 ls IH]; intros H; simpl; [reflexivity|].
  destruct (get l0 r) eqn:E.
  - simpl. f_equal. apply IH. intros l Hl. apply H. now right.
  - exfalso. apply (H l0); [now left|exact E].
Qed.

Lemma set_cell_new_label (l : string) (v : Cell) (r : Row) :
  get l r = None -> map fst (set_cell l v r) = map fst r ++ [l].
Proof.
  induction r as [|[l0 w] rest IH]; simpl; intros H; [reflexivity|].
  destruct (String.eqb l l0); [discriminate|]. simpl. f_equal. now apply IH.
Qed.

(** ** Ingestion *)

Lemma get_set_cell_value (l : string) (v : Cell) (r : Row) :
  get l (set_cell l v r) = Some v.
Proof.
  induction r as [|[l0 w] rest IH]; simpl.
  - now rewrite String.eqb_refl.
  - destruct (String.eqb l l0) eqn:E; simpl; rewrite E; [reflexivity|exact IH].
Qed.

Section IngestionFacts.

Variable md5_hexdigest : list Byte.byte -> string.
Variable readlines : list Byte.byte -> option (list string).
Variable read_csv : list Byte.byte -> nat -> Sep -> option RawFrame.
Variable strptime : string -> option datetime.

Local Abbreviation md5sum := (file_md5sum md5_hexdigest).
Local Abbreviation valid := (is_valid_rew_file readlines).
Local Abbreviation parse := (parse_header_and_data readlines read_csv strptime).
Local Abbreviation verdict := (examine readlines read_csv strptime).
Local Abbreviation ingest := (ingest_file md5_hexdigest readlines read_csv strptime).
Local Abbreviation ingest_all :=
  (ingest_files md5_hexdigest readlines read_csv strptime).

(** The loop body, read through [examine]. *)
Lemma ingest_file_examine (st : Run) (f : File) :
  ingest st f
  = let st0 := say (Processing (fn f)) st in
    if already_processed (md5sum f) (db st) then say AlreadyProcessed st0
    else
      match verdict f with
      | Invalid => log_bad (fp f) (say InvalidFile st0)
      | Unparsed => log_bad (fp f) (say (FailedToParse (fn f)) st0)
      | Incomplete => say (MissingColumns (fn f)) st0
      | Implausible => say (AllBelowLimit (fn f)) st0
      | Accepted frame =>
          say (Inserted (fn f))
              (mkRun (insert_processed (md5sum f) (fp f) (to_sql frame (db st)))
                     (bad_files st) (S (processed_count st)) (stdout st0))
      end.
Proof.
  unfold ingest_file, examine, lacks_extended. cbn zeta. simpl db.
  destruct (already_processed (md5sum f) (db st)); [reflexivity|].
  destruct (valid f); simpl negb; cbv iota; [|reflexivity].
  destruct (parse f) as [df|]; [|reflexivity].
  destruct (negb (mem_string "lceq1m" (columns df))
            || negb (mem_string "lceq10m" (columns df))
            || negb (mem_string "lzpeak" (columns df))); [reflexivity|].
  destruct (empty _); reflexivity.
Qed.

Lemma db_ingest_file (st : Run) (f : File) :
  db (ingest st f)
  = if already_processed (md5sum f) (db st) then db st
    else
      match verdict f with
      | Accepted frame =>
          insert_processed (md5sum f) (fp f) (to_sql frame (db st))
      | _ => db st
      end.
Proof.
  rewrite ingest_file_examine. cbn zeta.
  destruct (already_processed (md5sum f) (db st)); [reflexivity|].
  destruct (verdict f); reflexivity.
Qed.

Lemma bad_files_ingest_file (st : Run) (f : File) :
  bad_files (ingest st f)
  = if already_processed (md5sum f) (db st) then bad_files st
    else
      match verdict f with
      | Invalid | Unparsed => (bad_files st ++ [fp f])%list
      | _ => bad_files st
      end.
Proof.
  rewrite ingest_file_examine. cbn zeta.
  destruct (already_processed (md5sum f) (db st)); [reflexivity|].
  destruct (verdict f); reflexivity.
Qed.

(** Whether a file is accepted depends on its bytes alone. *)
Lemma accepts_bytes (f1 f2 : File) :
  bytes f1 = bytes f2 ->
  accepts readlines read_csv strptime f1 = accepts readlines read_csv strptime f2.
Proof.
  intros E. unfold accepts, examine.
  assert (Hv : valid f1 = valid f2)
    by (unfold is_valid_rew_file; rewrite E; reflexivity).
  assert (Hp : parse f1 = parse f2)
    by (unfold parse_header_and_data; rewrite E; reflexivity).
  rewrite Hv, Hp. destruct (valid f2); simpl; [|reflexivity].
  destruct (parse f2) as [df|]; [|reflexivity].
  destruct (lacks_extended df); [reflexivity|].
  destruct (empty _); reflexivity.
Qed.

Lemma already_processed_insert (h h' path : string) (d : Database) :
  already_processed h (insert_processed h' path d)
  = already_processed h d || String.eqb h' h.
Proof.
  unfold already_processed, insert_processed; simpl.
  rewrite existsb_app; simpl. now rewrite orb_false_r.
Qed.

Lemma already_processed_to_sql (h : string) (frame : DataFrame) (d : Database) :
  already_processed h (to_sql frame d) = already_processed h d.
Proof. reflexivity. Qed.

(** A recorded hash stays recorded. *)
Lemma already_processed_ingest_file (h : string) (st : Run) (f : File) :
  already_processed h (db st) = true ->
  already_processed h (db (ingest st f)) = true.
Proof.
  intros H. rewrite db_ingest_file.
  destruct (already_processed (md5sum f) (db st)); [exact H|].
  destruct (verdict f); try exact H.
  rewrite already_processed_insert, already_processed_to_sql, H. reflexivity.
Qed.

Lemma already_processed_ingest_files (h : string) (files : list File) (st : Run) :
  already_processed h (db st) = true ->
  already_processed h (db (ingest_all st files)) = true.
Proof.
  revert st. induction files as [|f rest IH]; intros st H; simpl.
  - exact H.
  - apply IH. now apply already_processed_ingest_file.
Qed.

(** After an accepted file has been through the loop body its hash is
    recorded. *)
Lemma accepted_then_processed (st : Run) (f : File) :
  accepts readlines read_csv strptime f = true ->
  already_processed (md5sum f) (db (ingest st f)) = true.
Proof.
  unfold accepts. intros Hacc. rewrite db_ingest_file.
  destruct (already_processed (md5sum f) (db st)) eqn:E; [exact E|].
  destruct (verdict f); try discriminate.
  rewrite already_processed_insert, String.eqb_refl. apply orb_true_r.
Qed.

(** The loop body only appends to [spl_data]. *)
Lemma spl_data_ingest_file (st : Run) (f : File) :
  exists added,
    spl_data (db (ingest st f)) = spl_data (db st) ++ added
    /\ (added = []
        \/ exists frame, verdict f = Accepted frame
                         /\ added = map to_sql_row (rows frame)).
Proof.
  rewrite db_ingest_file.
  destruct (already_processed (md5sum f) (db st)).
  { exists []. rewrite app_nil_r. auto. }
  destruct (verdict f) as [| | | |frame] eqn:E;
    try (exists []; rewrite app_nil_r; now auto).
  exists (map to_sql_row (rows frame)). split; [reflexivity|].
  right. exists frame. auto.
Qed.

(** The frame of an accepted file, spelled out. *)
Lemma accepted_frame (f : File) (frame : DataFrame) :
  verdict f = Accepted frame ->
  exists df,
    parse f = Some df
    /\ lacks_extended df = false
    /\ columns frame = inserted_columns
    /\ rows frame
       = map (set_cell "location" (VText (extract_location readlines f)))
           (map (set_cell "source" (VText (fp f)))
              (filter plausible_row
                 (map (select_row ["timestamp"; "lceq"; "lceq1m"; "lceq10m"; "lcs"])
                    (rows (rename "datetime" "timestamp" df))))).
Proof.
  unfold examine. destruct (valid f); simpl; [|discriminate].
  destruct (parse f) as [df|]; [|discriminate].
  destruct (lacks_extended df) eqn:El; [discriminate|].
  destruct (empty _); [discriminate|].
  intros H. injection H as <-. exists df.
  split; [reflexivity|]. split; [exact El|]. split; reflexivity.
Qed.

(** A parsed frame has the [lcs], [lceq] and [datetime] columns, and each
    of its rows has a cell under every column. *)
Lemma parsed_frame (f : File) (df : DataFrame) :
  parse f = Some df ->
  mem_string "lcs" (columns df) = true
  /\ mem_string "lceq" (columns df) = true
  /\ mem_string "datetime" (columns df) = true
  /\ forall r l, In r (rows df) -> mem_string l (columns df) = true ->
                 get l r <> None.
Proof.
  unfold parse_header_and_data.
  destruct (readlines (bytes f)) as [lines|]; [|discriminate].
  destruct (find (prefix "Date:") lines) as [date_line|]; [|discriminate].
  destruct (after_colon date_line) as [rest|]; [|discriminate].
  destruct (strptime (strip rest)) as [start_dt|]; [|discriminate].
  destruct (nth_error lines _) as [first_record|]; [|discriminate].
  destruct (read_csv _ _ _) as [raw|]; [|discriminate].
  set (labels := map (fun c => lower (strip c)) (raw_columns raw)).
  destruct (mem_string "lcs" labels) eqn:Hlcs; [|discriminate].
  destruct (mem_string "lceq" labels) eqn:Hlceq; [|discriminate].
  simpl. intros H. injection H as <-. cbn [columns rows].
  rewrite !mem_set_label, Hlcs, Hlceq. repeat split; try reflexivity.
  - now rewrite orb_true_r.
  - intros r l Hin Hl.
    apply In_assign_indexed in Hin. destruct Hin as [r1 [j [Hin ->]]].
    apply In_assign_indexed in Hin. destruct Hin as [r0 [i [Hin ->]]].
    apply in_map_iff in Hin. destruct Hin as [cells [<- _]].
    rewrite !mem_set_label in Hl.
    destruct (String.eqb l "datetime") eqn:E1.
    { apply String.eqb_eq in E1. subst l. apply get_set_cell_same. }
    apply get_set_cell_kept.
    destruct (String.eqb l "elapsedseconds") eqn:E2.
    { apply String.eqb_eq in E2. subst l. apply get_set_cell_same. }
    apply get_set_cell_kept. apply get_label_row.
    now rewrite !orb_false_r in Hl.
Qed.

(** Every row of an accepted frame has exactly the seven cells that are
    inserted. *)
Lemma accepted_rows_labels (f : File) (frame : DataFrame) :
  verdict f = Accepted frame ->
  Forall (fun r => map fst r = inserted_columns) (rows frame).
Proof.
  intros Hv. destruct (accepted_frame f frame Hv) as [df [Hp [Hl [_ Hrows]]]].
  destruct (parsed_frame f df Hp) as [Hlcs [Hlceq [Hdt Hall]]].
  unfold lacks_extended in Hl. rewrite !orb_false_iff, !negb_false_iff in Hl.
  destruct Hl as [[H1m H10m] _].
  rewrite Hrows, !map_map. apply Forall_map, Forall_forall.
  intros r Hin. apply filter_In in Hin. destruct Hin as [Hin _].
  apply in_map_iff in Hin. destruct Hin as [r1 [<- Hin]].
  unfold rename in Hin. cbn [rows] in Hin.
  apply in_map_iff in Hin. destruct Hin as [r0 [<- Hin]].
  rewrite set_cell_new_label.
  2:{ rewrite get_set_cell_other by reflexivity.
      now apply get_select_row_absent. }
  rewrite set_cell_new_label by (now apply get_select_row_absent).
  rewrite select_row_labels; [reflexivity|].
  intros l [<-|[<-|[<-|[<-|[<-|[]]]]]].
  - apply get_rename_new. now apply Hall.
  - rewrite get_rename_other by reflexivity. now apply Hall.
  - rewrite get_rename_other by reflexivity. now apply Hall.
  - rewrite get_rename_other by reflexivity. now apply Hall.
  - rewrite get_rename_other by reflexivity. now apply Hall.
Qed.

Lemma md5sum_bytes (f1 f2 : File) : bytes f1 = bytes f2 -> md5sum f1 = md5sum f2.
Proof. unfold file_md5sum. now intros ->. Qed.

Lemma processed_count_skipped (st : Run) (f : File) :
  already_processed (md5sum f) (db st) = true ->
  processed_count (ingest st f) = processed_count st.
Proof. intros H. rewrite ingest_file_examine. cbn zeta. now rewrite H. Qed.

(** What is appended to [spl_data] by the loop has every property the rows
    of every accepted frame have. *)
Lemma ingest_files_added (P : SplRow -> Prop) :
  (forall f frame, verdict f = Accepted frame ->
                   Forall P (map to_sql_row (rows frame))) ->
  forall files st,
    exists added,
      spl_data (db (ingest_all st files)) = spl_data (db st) ++ added
      /\ Forall P added.
Proof.
  intros HP files. induction files as [|f rest IH]; intros st; simpl.
  - exists []. rewrite app_nil_r. auto.
  - destruct (IH (ingest st f)) as [later [Hl Pl]].
    destruct (spl_data_ingest_file st f) as [now_ [Hn Hcase]].
    exists (now_ ++ later). split.
    + rewrite app_assoc, <- Hn. exact Hl.
    + apply Forall_app. split; [|exact Pl].
      destruct Hcase as [->|[frame [Hv ->]]]; [constructor|].
      now apply HP with f.
Qed.

(** An accepted frame is not empty: line 221 has let it through. *)
Lemma accepted_rows_nonempty (f : File) (frame : DataFrame) :
  verdict f = Accepted frame -> rows frame <> [].
Proof.
  unfold examine. destruct (valid f); simpl; [|discriminate].
  destruct (parse f) as [df|]; [|discriminate].
  destruct (lacks_extended df); [discriminate|].
  destruct (empty _) eqn:Ee; [discriminate|].
  intros H. injection H as <-. unfold empty in Ee.
  unfold assign. cbn [rows]. intros Hnil.
  apply map_eq_nil in Hnil. apply map_eq_nil in Hnil.
  now rewrite Hnil in Ee.
Qed.

(** C2.  A file whose checksum is already in [processed_files] leaves the
    store, the bad-files list and the processed count as they were.  Of two
    files with the same bytes, whatever their paths and whatever files the
    walk visits in between, the second adds nothing to the store after the
    first has been through the loop.  And when the first of them is new to
    the store and accepted, its readings are what the run inserts, once:
    the rows handed to [to_sql] are the parsed rows that pass the
    plausibility mask, there is at least one, each is stored by [to_sql_row]
    under the path of the first file with all four levels at least
    [MIN_SPL_LIMIT]; after the first file [spl_data] is the old table
    followed by these rows and [processed_files] the old table followed by
    the checksum with the first path, and after the copy both tables are
    still exactly that. *)
Theorem C2_ingestion_idempotent_on_content :
  (forall st f,
      already_processed (md5sum f) (db st) = true ->
      db (ingest st f) = db st
      /\ bad_files (ingest st f) = bad_files st
      /\ processed_count (ingest st f) = processed_count st)
  /\ (forall st f1 mid f2,
        bytes f1 = bytes f2 ->
        db (ingest (ingest_all (ingest st f1) mid) f2)
        = db (ingest_all (ingest st f1) mid))
  /\ (forall st f1 f2 frame,
        already_processed (md5sum f1) (db st) = false ->
        verdict f1 = Accepted frame ->
        bytes f1 = bytes f2 ->
        (exists df,
            parse f1 = Some df
            /\ rows frame
               = map (set_cell "location" (VText (extract_location readlines f1)))
                   (map (set_cell "source" (VText (fp f1)))
                      (filter plausible_row
                         (map (select_row
                                 ["timestamp"; "lceq"; "lceq1m"; "lceq10m"; "lcs"])
                            (rows (rename "datetime" "timestamp" df))))))
        /\ rows frame <> []
        /\ Forall (fun r => spl_source r = Some (fp f1) /\ above_floor r)
                  (map to_sql_row (rows frame))
        /\ spl_data (db (ingest st f1))
           = spl_data (db st) ++ map to_sql_row (rows frame)
        /\ processed_files (db (ingest st f1))
           = processed_files (db st) ++ [(md5sum f1, fp f1)]
        /\ spl_data (db (ingest (ingest st f1) f2))
           = spl_data (db st) ++ map to_sql_row (rows frame)
        /\ processed_files (db (ingest (ingest st f1) f2))
           = processed_files (db st) ++ [(md5sum f1, fp f1)]).
Proof.
  assert (Hsame : forall st f1 mid f2,
             bytes f1 = bytes f2 ->
             db (ingest (ingest_all (ingest st f1) mid) f2)
             = db (ingest_all (ingest st f1) mid)).
  { intros st f1 mid f2 E. rewrite db_ingest_file.
    destruct (already_processed (md5sum f2) _) eqn:Hseen; [reflexivity|].
    pose proof (accepts_bytes f1 f2 E) as Hacc.
    destruct (accepts readlines read_csv strptime f2) eqn:A2.
    + exfalso.
      pose proof (accepted_then_processed st f1 Hacc) as H1.
      apply (already_processed_ingest_files _ mid) in H1.
      rewrite (md5sum_bytes f1 f2 E) in H1. congruence.
    + unfold accepts in A2. destruct (verdict f2); (reflexivity || discriminate). }
  split; [|split; [exact Hsame|]].
  - intros st f H. split; [|split].
    + rewrite db_ingest_file. now rewrite H.
    + rewrite bad_files_ingest_file. now rewrite H.
    + now apply processed_count_skipped.
  - intros st f1 f2 frame Hnew Hv E.
    destruct (accepted_frame f1 frame Hv) as [df [Hp [_ [_ Hrows]]]].
    assert (Hdb : db (ingest st f1)
                  = insert_processed (md5sum f1) (fp f1) (to_sql frame (db st)))
      by (rewrite db_ingest_file, Hnew, Hv; reflexivity).
    pose proof (Hsame st f1 [] f2 E) as Hcopy. simpl in Hcopy.
    split; [exists df; split; [exact Hp|exact Hrows]|].
    split; [now apply accepted_rows_nonempty with f1|].
    split.
    { rewrite Hrows, !map_map. apply Forall_map, Forall_forall.
      intros r Hin. apply filter_In in Hin. destruct Hin as [_ Hmask]. split.
      - unfold to_sql_row. cbn [spl_source].
        rewrite get_set_cell_other by reflexivity.
        now rewrite get_set_cell_value.
      - now apply stored_row_above_floor. }
    rewrite Hcopy, Hdb. repeat split; reflexivity.
Qed.

(** C4.  Whatever files a run walks through, every row it appends to
    [spl_data] has [lcs], [lceq], [lceq1m] and [lceq10m] present and at
    least [MIN_SPL_LIMIT], which is 50.0. *)
Theorem C4_inserted_readings_above_floor :
  (MIN_SPL_LIMIT == 50)%Q
  /\ forall st files,
      exists added,
        spl_data (db (ingest_all st files)) = spl_data (db st) ++ added
        /\ Forall above_floor added.
Proof.
  split; [reflexivity|]. intros st files.
  apply ingest_files_added. intros f frame Hv.
  destruct (accepted_frame f frame Hv) as [df [_ [_ [_ Hrows]]]].
  rewrite Hrows, !map_map. apply Forall_map, Forall_forall.
  intros r Hin. apply filter_In in Hin. destruct Hin as [_ Hmask].
  now apply stored_row_above_floor.
Qed.

(** C10.  Every row a run appends to [spl_data] has a NULL [lzpeak]: the
    frame handed to [to_sql] has exactly the columns timestamp, lceq,
    lceq1m, lceq10m, lcs, source and location, and each of its rows has
    exactly these cells, although a file is only accepted when its parsed
    frame has an [lzpeak] column. *)
Theorem C10_lzpeak_never_persisted :
  (forall st files,
      exists added,
        spl_data (db (ingest_all st files)) = spl_data (db st) ++ added
        /\ Forall (fun r => spl_lzpeak r = None) added)
  /\ (forall f,
        match verdict f with
        | Accepted frame =>
            columns frame
            = ["timestamp"; "lceq"; "lceq1m"; "lceq10m"; "lcs"; "source"; "location"]
            /\ Forall (fun r => map fst r = columns frame) (rows frame)
            /\ exists df, parse f = Some df
                          /\ mem_string "lzpeak" (columns df) = true
        | _ => True
        end).
Proof.
  split.
  - intros st files. apply ingest_files_added. intros f frame Hv.
    destruct (accepted_frame f frame Hv) as [df [_ [_ [_ Hrows]]]].
    rewrite Hrows, !map_map. apply Forall_map, Forall_forall.
    intros r Hin. apply filter_In in Hin. destruct Hin as [Hin _].
    apply in_map_iff in Hin. destruct Hin as [r0 [<- _]].
    apply stored_row_lzpeak_null.
  - intros f. destruct (verdict f) as [| | | |frame] eqn:Hv; try exact I.
    destruct (accepted_frame f frame Hv) as [df [Hp [Hl [Hc _]]]].
    split; [exact Hc|]. split; [rewrite Hc; now apply accepted_rows_labels with f|].
    exists df. split; [exact Hp|].
    unfold lacks_extended in Hl. rewrite !orb_false_iff, !negb_false_iff in Hl.
    tauto.
Qed.

Lemma verdict_incomplete (f : File) (df : DataFrame) :
  valid f = true -> parse f = Some df -> lacks_extended df = true ->
  verdict f = Incomplete.
Proof. intros Hv Hp Hl. unfold examine. now rewrite Hv, Hp, Hl. Qed.

Lemma verdict_implausible (f : File) (df : DataFrame) :
  valid f = true -> parse f = Some df -> lacks_extended df = false ->
  filter plausible_row
    (rows (select ["timestamp"; "lceq"; "lceq1m"; "lceq10m"; "lcs"]
             (rename "datetime" "timestamp" df))) = [] ->
  verdict f = Implausible.
Proof.
  intros Hv Hp Hl Hf. unfold examine. rewrite Hv, Hp, Hl. simpl negb. cbv iota.
  unfold empty, where_. cbn [rows]. now rewrite Hf.
Qed.

Lemma stdout_say2 (a b : Message) (st : Run) :
  stdout (say b (say a st)) = stdout st ++ [a; b].
Proof. simpl. now rewrite <- app_assoc. Qed.

(** C8, as the code has it.  A file that validates and parses but lacks one
    of [lceq1m], [lceq10m], [lzpeak] is skipped with a printed line only:
    the store (so also [processed_files]) and the [bad_files] list are left
    exactly as they were. *)
Theorem C8_missing_extended_columns_skipped_unreported
  (st : Run) (f : File) (df : DataFrame) :
  valid f = true ->
  parse f = Some df ->
  lacks_extended df = true ->
  db (ingest st f) = db st
  /\ bad_files (ingest st f) = bad_files st
  /\ (already_processed (md5sum f) (db st) = false ->
      stdout (ingest st f)
      = stdout st ++ [Processing (fn f); MissingColumns (fn f)]).
Proof.
  intros Hv Hp Hl. pose proof (verdict_incomplete f df Hv Hp Hl) as E.
  split; [|split].
  - rewrite db_ingest_file, E. now destruct (already_processed _ _).
  - rewrite bad_files_ingest_file, E. now destruct (already_processed _ _).
  - intros Hnew. rewrite ingest_file_examine. cbn zeta. rewrite Hnew, E.
    apply stdout_say2.
Qed.

(** C9, as the code has it.  A file not yet recorded whose rows all fail
    the plausibility mask is skipped with a printed line only: nothing is
    inserted, [processed_files] and [bad_files] are left as they were, and
    any later pass over the same store reads the file again and skips it
    the same way. *)
Theorem C9_all_below_floor_skipped_and_rescanned
  (st : Run) (f : File) (df : DataFrame) :
  already_processed (md5sum f) (db st) = false ->
  valid f = true ->
  parse f = Some df ->
  lacks_extended df = false ->
  filter plausible_row
    (rows (select ["timestamp"; "lceq"; "lceq1m"; "lceq10m"; "lcs"]
             (rename "datetime" "timestamp" df))) = [] ->
  db (ingest st f) = db st
  /\ bad_files (ingest st f) = bad_files st
  /\ stdout (ingest st f) = stdout st ++ [Processing (fn f); AllBelowLimit (fn f)]
  /\ forall later,
      db later = db (ingest st f) ->
      db (ingest later f) = db later
      /\ stdout (ingest later f)
         = stdout later ++ [Processing (fn f); AllBelowLimit (fn f)].
Proof.
  intros Hnew Hv Hp Hl Hf.
  pose proof (verdict_implausible f df Hv Hp Hl Hf) as E.
  assert (Hstep : forall s, already_processed (md5sum f) (db s) = false ->
            db (ingest s f) = db s
            /\ bad_files (ingest s f) = bad_files s
            /\ stdout (ingest s f)
               = stdout s ++ [Processing (fn f); AllBelowLimit (fn f)]).
  { intros s Hs. rewrite ingest_file_examine. cbn zeta. rewrite Hs, E.
    split; [reflexivity|]. split; [reflexivity|]. apply stdout_say2. }
  destruct (Hstep st Hnew) as [Hd [Hb Hs]].
  split; [exact Hd|]. split; [exact Hb|]. split; [exact Hs|].
  intros later Hlater.
  assert (Hl' : already_processed (md5sum f) (db later) = false)
    by (rewrite Hlater, Hd; exact Hnew).
  destruct (Hstep later Hl') as [Hd' [_ Hs']]. now split.
Qed.

End IngestionFacts.

(** ** The three example files through the loop *)

Example toy_files_verdicts :
  is_valid_rew_file toy_readlines full_file = true
  /\ accepts toy_readlines toy_read_csv toy_strptime full_file = true
  /\ examine toy_readlines toy_read_csv toy_strptime short_file = Incomplete
  /\ examine toy_readlines toy_read_csv toy_strptime quiet_file = Implausible.
Proof. repeat split; vm_compute; reflexivity. Qed.

Example toy_run_output :
  stdout (fold_left toy_ingest [short_file; quiet_file; full_file; full_copy]
            (start_run empty_db))
  = [ Processing "old.txt"; MissingColumns "old.txt";
      Processing "quiet.txt"; AllBelowLimit "quiet.txt";
      Processing "night.txt"; Inserted "night.txt";
      Processing "night (1).txt"; AlreadyProcessed ].
Proof. vm_compute. reflexivity. Qed.

(** The copy of an ingested file, met later under another path, changes
    nothing: the two plausible readings of [night.txt] are in [spl_data]
    once, under the first path, and one ingestion record is kept. *)
Lemma C2_witness_copy_in_other_folder :
  bytes full_file = bytes full_copy
  /\ already_processed (file_md5sum toy_md5 full_copy)
       (db (toy_ingest (start_run empty_db) full_file)) = true
  /\ db (toy_ingest (toy_ingest (start_run empty_db) full_file) full_copy)
     = db (toy_ingest (start_run empty_db) full_file)
  /\ db (toy_ingest
           (ingest_files toy_md5 toy_readlines toy_read_csv toy_strptime
              (toy_ingest (start_run empty_db) full_file) [short_file])
           full_copy)
     = db (ingest_files toy_md5 toy_readlines toy_read_csv toy_strptime
             (toy_ingest (start_run empty_db) full_file) [short_file])
  /\ spl_data (db (toy_ingest (toy_ingest (start_run empty_db) full_file) full_copy))
     = [ mkSplRow (Some (mkdatetime 2025 5 2 23 30 0 0))
           (Some (625 # 10)) (Some (61 # 1)) (Some (62 # 1)) (Some (615 # 10))
           None (Some "20250502/night.txt") (Some "Balcony");
         mkSplRow (Some (mkdatetime 2025 5 2 23 30 0 341333))
           (Some (812 # 10)) (Some (702 # 10)) (Some (64 # 1)) (Some (616 # 10))
           None (Some "20250502/night.txt") (Some "Balcony") ]
  /\ processed_files
       (db (toy_ingest (toy_ingest (start_run empty_db) full_file) full_copy))
     = [ (file_md5sum toy_md5 full_file, "20250502/night.txt") ].
Proof.
  destruct (C2_ingestion_idempotent_on_content
              toy_md5 toy_readlines toy_read_csv toy_strptime)
    as [Hskip [Hsame Honce]].
  assert (Hb : bytes full_file = bytes full_copy) by reflexivity.
  assert (Hp : already_processed (file_md5sum toy_md5 full_copy)
                 (db (toy_ingest (start_run empty_db) full_file)) = true)
    by (vm_compute; reflexivity).
  assert (Hnew : already_processed (file_md5sum toy_md5 full_file)
                   (db (start_run empty_db)) = false) by reflexivity.
  assert (Hv : examine toy_readlines toy_read_csv toy_strptime full_file
               = Accepted full_frame) by (vm_compute; reflexivity).
  split; [exact Hb|]. split; [exact Hp|]. split; [exact (proj1 (Hskip _ _ Hp))|].
  split; [exact (Hsame (start_run empty_db) full_file [short_file] full_copy Hb)|].
  destruct (Honce (start_run empty_db) full_file full_copy full_frame Hnew Hv Hb)
    as [_ [_ [_ [_ [_ [Hrows Hrec]]]]]].
  split; [exact Hrows|exact Hrec].
Defined.

(** C8, against the claim.  [old.txt] validates and parses, has no
    [lceq1m] column, and after the run over it the bad-files list is empty
    and no report is written. *)
Lemma C8_counterexample_short_file_not_reported :
  is_valid_rew_file toy_readlines short_file = true
  /\ (exists df,
        parse_header_and_data toy_readlines toy_read_csv toy_strptime short_file
        = Some df
        /\ mem_string "lceq1m" (columns df) = false)
  /\ ~ In (fp short_file)
          (bad_files
             (ingest_files toy_md5 toy_readlines toy_read_csv toy_strptime
                (start_run empty_db) [short_file]))
  /\ bad_files_report None
       (ingest_files toy_md5 toy_readlines toy_read_csv toy_strptime
          (start_run empty_db) [short_file])
     = None.
Proof.
  split; [vm_compute; reflexivity|]. split.
  - eexists. split; [vm_compute; reflexivity|]. vm_compute. reflexivity.
  - split; [|vm_compute; reflexivity].
    vm_compute. intros H. exact H.
Qed.

Lemma C8_witness_short_file :
  db (toy_ingest (start_run empty_db) short_file) = empty_db
  /\ bad_files (toy_ingest (start_run empty_db) short_file) = []
  /\ stdout (toy_ingest (start_run empty_db) short_file)
     = [Processing "old.txt"; MissingColumns "old.txt"].
Proof.
  destruct (parse_header_and_data toy_readlines toy_read_csv toy_strptime short_file)
    as [df|] eqn:Hp; [|vm_compute in Hp; discriminate].
  assert (Hl : lacks_extended df = true).
  { vm_compute in Hp. injection Hp as <-. vm_compute. reflexivity. }
  destruct (C8_missing_extended_columns_skipped_unreported
              toy_md5 toy_readlines toy_read_csv toy_strptime
              (start_run empty_db) short_file df eq_refl Hp Hl) as [Hd [Hb Hs]].
  split; [exact Hd|]. split; [exact Hb|]. apply Hs. reflexivity.
Defined.

(** C9, against the claim.  Every row of [quiet.txt] is below the floor;
    after the run over it nothing about the file is kept: the store is
    empty, the bad-files list is empty and no report is written. *)
Lemma C9_counterexample_quiet_file_not_recorded :
  is_valid_rew_file toy_readlines quiet_file = true
  /\ (exists df,
        parse_header_and_data toy_readlines toy_read_csv toy_strptime quiet_file
        = Some df
        /\ lacks_extended df = false
        /\ filter plausible_row
             (rows (select ["timestamp"; "lceq"; "lceq1m"; "lceq10m"; "lcs"]
                      (rename "datetime" "timestamp" df))) = [])
  /\ db (ingest_files toy_md5 toy_readlines toy_read_csv toy_strptime
           (start_run empty_db) [quiet_file]) = empty_db
  /\ ~ In (fp quiet_file)
          (bad_files
             (ingest_files toy_md5 toy_readlines toy_read_csv toy_strptime
                (start_run empty_db) [quiet_file]))
  /\ bad_files_report None
       (ingest_files toy_md5 toy_readlines toy_read_csv toy_strptime
          (start_run empty_db) [quiet_file])
     = None.
Proof.
  split; [vm_compute; reflexivity|]. split.
  - eexists. split; [vm_compute; reflexivity|]. split; vm_compute; reflexivity.
  - split; [vm_compute; reflexivity|]. split; [|vm_compute; reflexivity].
    vm_compute. intros H. exact H.
Qed.

Lemma C9_witness_quiet_file :
  db (toy_ingest (start_run empty_db) quiet_file) = empty_db
  /\ bad_files (toy_ingest (start_run empty_db) quiet_file) = []
  /\ stdout (toy_ingest (toy_ingest (start_run empty_db) quiet_file) quiet_file)
     = [ Processing "quiet.txt"; AllBelowLimit "quiet.txt";
         Processing "quiet.txt"; AllBelowLimit "quiet.txt" ].
Proof.
  destruct (parse_header_and_data toy_readlines toy_read_csv toy_strptime quiet_file)
    as [df|] eqn:Hp; [|vm_compute in Hp; discriminate].
  assert (Hl : lacks_extended df = false
               /\ filter plausible_row
                    (rows (select ["timestamp"; "lceq"; "lceq1m"; "lceq10m"; "lcs"]
                             (rename "datetime" "timestamp" df))) = []).
  { vm_compute in Hp. injection Hp as <-. split; vm_compute; reflexivity. }
  destruct Hl as [Hl Hf].
  destruct (C9_all_below_floor_skipped_and_rescanned
              toy_md5 toy_readlines toy_read_csv toy_strptime
              (start_run empty_db) quiet_file df eq_refl eq_refl Hp Hl Hf)
    as [Hd [Hb [Hs Hlater]]].
  split; [exact Hd|]. split; [exact Hb|].
  destruct (Hlater _ eq_refl) as [_ Hs2]. unfold toy_ingest.
  rewrite Hs2, Hs. reflexivity.
Defined.

(** ** Rounding *)

Lemma Qfloor_unique (x : Q) (k : Z) :
  (inject_Z k <= x)%Q -> (x < inject_Z k + 1)%Q -> Qfloor x = k.
Proof.
  intros Hlo Hhi. apply Z.le_antisymm.
  - apply Z.lt_succ_r. rewrite Zlt_Qlt.
    apply Qle_lt_trans with x; [apply Qfloor_le|].
    unfold Z.succ. rewrite inject_Z_plus. exact Hhi.
  - rewrite <- (Qfloor_Z k). now apply Qfloor_resp_le.
Qed.

Lemma Qceiling_unique (x : Q) (k : Z) :
  (inject_Z k - 1 < x)%Q -> (x <= inject_Z k)%Q -> Qceiling x = k.
Proof.
  intros Hlo Hhi. unfold Qceiling.
  rewrite (Qfloor_unique (- x) (- k)); [lia| |].
  - rewrite inject_Z_opp. now apply Qopp_le_compat.
  - rewrite inject_Z_opp.
    apply Qopp_lt_compat in Hlo.
    eapply Qlt_le_trans; [exact Hlo|].
    unfold Qle, Qminus, Qplus, Qopp, inject_Z; simpl. lia.
Qed.

(** SQLite's rounding leaves a value alone that is already a number of
    tenths. *)
Lemma sql_round1_tenths (k : Z) : sql_round1 (k # 10) = k # 10.
Proof.
  unfold sql_round1. f_equal.
  destruct (Qle_bool 0 (k # 10)).
  - apply Qfloor_unique.
    + unfold Qle, Qmult, Qplus, inject_Z; simpl. lia.
    + unfold Qlt, Qmult, Qplus, inject_Z; simpl. lia.
  - apply Qceiling_unique.
    + unfold Qlt, Qmult, Qplus, Qminus, Qopp, inject_Z; simpl. lia.
    + unfold Qle, Qmult, Qplus, Qminus, Qopp, inject_Z; simpl. lia.
Qed.

(** On a level in range [ROUND] gives back what [round] has produced. *)
Lemma sql_round1_round1 (x : Q) :
  level_in_range x -> sql_round1 (round1 x) = round1 x.
Proof. intros _. unfold round1. apply sql_round1_tenths. Qed.

Lemma Qle_bool_comp (a x y : Q) : (x == y)%Q -> Qle_bool a x = Qle_bool a y.
Proof.
  intros E. destruct (Qle_bool a x) eqn:Hx, (Qle_bool a y) eqn:Hy; try reflexivity.
  - apply Qle_bool_iff in Hx. rewrite E in Hx. apply Qle_bool_iff in Hx. congruence.
  - apply Qle_bool_iff in Hy. rewrite <- E in Hy. apply Qle_bool_iff in Hy. congruence.
Qed.

(** [ROUND] gives equal results on equal numbers. *)
Lemma sql_round1_comp (x y : Q) : (x == y)%Q -> sql_round1 x = sql_round1 y.
Proof.
  intros E. unfold sql_round1. rewrite (Qle_bool_comp 0 x y E).
  assert (E1 : (x * 10 + (1 # 2) == y * 10 + (1 # 2))%Q) by (now rewrite E).
  assert (E2 : (x * 10 - (1 # 2) == y * 10 - (1 # 2))%Q) by (now rewrite E).
  now rewrite (Qfloor_comp _ _ E1), (Qceiling_comp _ _ E2).
Qed.

(** ** Session tagging *)

Lemma option_string_eqb_eq (a b : option string) :
  option_string_eqb a b = true <-> a = b.
Proof.
  destruct a as [x|], b as [y|]; simpl; split; intros H;
    try discriminate; try reflexivity.
  - apply String.eqb_eq in H. now subst.
  - injection H as ->. apply String.eqb_refl.
Qed.

Lemma key_eqb_refl (k : Key) : key_eqb k k = true.
Proof.
  destruct k as [[[[s dd] t] q] o]. simpl.
  rewrite !String.eqb_refl. simpl.
  assert (Hq : Qeq_bool q q = true) by (apply Qeq_bool_iff; reflexivity).
  rewrite Hq. simpl. now apply option_string_eqb_eq.
Qed.

Lemma In_key_in (k : Key) (keys : list Key) : In k keys -> key_in k keys = true.
Proof.
  intros H. unfold key_in. apply existsb_exists. exists k.
  split; [exact H|apply key_eqb_refl].
Qed.

Lemma key_in_rev (k : Key) (keys : list Key) : key_in k (rev keys) = key_in k keys.
Proof.
  unfold key_in. induction keys as [|a l IH]; simpl; [reflexivity|].
  rewrite existsb_app, IH. simpl. rewrite orb_false_r. apply orb_comm.
Qed.

Lemma key_of_prepared_row (k : Key) (loc : option string) :
  key_of (prepared_row k loc) = k.
Proof. now destruct k as [[[[s dd] t] q] o]. Qed.

(** [foldM] over a concatenation and over a mapped list. *)
Lemma foldM_app {A S : Type} (f : S -> A -> option S) (l1 l2 : list A) (s : S) :
  foldM f (l1 ++ l2) s
  = match foldM f l1 s with Some s' => foldM f l2 s' | None => None end.
Proof.
  revert s. induction l1 as [|a l IH]; intros s; simpl; [reflexivity|].
  destruct (f s a); [apply IH|reflexivity].
Qed.

Lemma foldM_map {A B S : Type} (f : S -> B -> option S) (g : A -> B)
  (l : list A) (s : S) :
  foldM f (map g l) s = foldM (fun s a => f s (g a)) l s.
Proof.
  revert s. induction l as [|a l IH]; intros s; simpl; [reflexivity|].
  destruct (f s (g a)); [apply IH|reflexivity].
Qed.

(** The (window, reading) pairs in the order the nested loops meet them. *)
Lemma nested_loops_flat (existing : list Key) (windows : list SessionDef)
  (readings : list SplRow) (acc : Tagging) :
  foldM (fun acc sd => foldM (tag existing sd) readings acc) windows acc
  = foldM (fun acc p => tag existing (fst p) acc (snd p))
      (flat_map (fun sd => map (pair sd) readings) windows) acc.
Proof.
  revert acc. induction windows as [|sd ws IH]; intros acc; simpl; [reflexivity|].
  rewrite foldM_app, foldM_map. simpl.
  destruct (foldM (tag existing sd) readings acc); [apply IH|reflexivity].
Qed.

(** The loop body in terms of the key it builds. *)
Lemma tag_candidate (existing : list Key) (sd : SessionDef) (acc : Tagging)
  (row : SplRow) :
  tag existing sd acc row
  = match candidate sd row with
    | None => None
    | Some None => Some acc
    | Some (Some k) =>
        if negb (key_in k (fst acc)) && negb (key_in k existing)
        then Some (k :: fst acc, snd acc ++ [prepared_row k (spl_location row)])
        else Some acc
    end.
Proof.
  unfold tag, candidate. destruct sd as [[[label wd] start] end_].
  destruct (spl_timestamp row) as [ts|]; [|reflexivity].
  destruct (session_includes ts wd start end_); [|reflexivity].
  destruct (spl_lceq row); reflexivity.
Qed.

Lemma candidate_rounded (sd : SessionDef) (row : SplRow) (k : Key) :
  reading_in_range row ->
  candidate sd row = Some (Some k) ->
  rounded (snd (fst k)).
Proof.
  unfold candidate, reading_in_range. destruct sd as [[[label wd] start] end_].
  intros Hrange.
  destruct (spl_timestamp row) as [ts|]; [|discriminate].
  destruct (session_includes ts wd start end_); [|discriminate].
  destruct (spl_lceq row) as [q|]; [|discriminate].
  intros H. injection H as <-. simpl. exists q. split; [now apply Hrange|reflexivity].
Qed.

Lemma all_new_snoc (existing earlier : list Key) (data : list SessionRow)
  (r : SessionRow) :
  all_new existing earlier data ->
  key_in (key_of r) existing = false ->
  key_in (key_of r) (rev (map key_of data) ++ earlier) = false ->
  all_new existing earlier (data ++ [r]).
Proof.
  revert earlier. induction data as [|a d IH]; intros earlier Hd HE Hs; simpl in *.
  - auto.
  - destruct Hd as [Ha [Hb Hc]]. split; [exact Ha|]. split; [exact Hb|].
    apply IH; [exact Hc|exact HE|]. now rewrite <- app_assoc in Hs.
Qed.

Lemma s_lceq_prepared_row (k : Key) (loc : option string) :
  s_lceq (prepared_row k loc) = snd (fst k).
Proof. now destruct k as [[[[s dd] t] q] o]. Qed.

Lemma tag_step (existing : list Key) (sd : SessionDef) (acc acc' : Tagging)
  (row : SplRow) :
  reading_in_range row ->
  tagging_ok existing acc ->
  tag existing sd acc row = Some acc' ->
  tagging_ok existing acc'
  /\ covered existing acc' (sd, row)
  /\ (forall k, key_in k (fst acc) = true -> key_in k (fst acc') = true).
Proof.
  intros Hrange [Hseen [Hnew Hrnd]]. rewrite tag_candidate. unfold covered. simpl.
  destruct (candidate sd row) as [[k|]|] eqn:C; [| |discriminate].
  - destruct (key_in k (fst acc)) eqn:Ks; simpl.
    { intros H. injection H as <-. rewrite Ks. repeat split; auto. }
    destruct (key_in k existing) eqn:Ke; simpl.
    { intros H. injection H as <-. repeat split; auto. }
    intros H. injection H as <-. simpl. split; [|split].
    + split; [|split]; simpl.
      * rewrite map_app, rev_app_distr. simpl.
        now rewrite key_of_prepared_row, Hseen.
      * apply all_new_snoc; [exact Hnew| |]; rewrite key_of_prepared_row.
        -- exact Ke.
        -- now rewrite app_nil_r, <- Hseen.
      * apply Forall_app. split; [exact Hrnd|]. constructor; [|constructor].
        rewrite s_lceq_prepared_row. now apply candidate_rounded with sd row.
    + left. now rewrite key_eqb_refl.
    + intros k0 H0. rewrite H0. apply orb_true_r.
  - intros H. injection H as <-. repeat split; auto.
Qed.

Lemma covered_grows (existing : list Key) (acc acc' : Tagging)
  (p : SessionDef * SplRow) :
  (forall k, key_in k (fst acc) = true -> key_in k (fst acc') = true) ->
  covered existing acc p -> covered existing acc' p.
Proof.
  intros Hg. unfold covered. destruct (candidate (fst p) (snd p)) as [[k|]|]; auto.
  intros [H|H]; auto.
Qed.

(** One pass over pairs whose readings are in range keeps [tagging_ok] and
    covers every pair. *)
Lemma pass_invariant (existing : list Key) (pairs : list (SessionDef * SplRow)) :
  Forall (fun p => reading_in_range (snd p)) pairs ->
  forall acc acc',
    tagging_ok existing acc ->
    foldM (fun acc p => tag existing (fst p) acc (snd p)) pairs acc = Some acc' ->
    tagging_ok existing acc'
    /\ (forall p, In p pairs -> covered existing acc' p)
    /\ (forall k, key_in k (fst acc) = true -> key_in k (fst acc') = true).
Proof.
  induction pairs as [|[sd row] rest IH]; intros Hrange acc acc' Hok Hrun;
    simpl in Hrun.
  - injection Hrun as <-. split; [exact Hok|]. split; [intros p []|auto].
  - apply Forall_cons_iff in Hrange. destruct Hrange as [Hrow Hrange].
    destruct (tag existing sd acc row) as [acc1|] eqn:Hstep; [|discriminate].
    destruct (tag_step _ _ _ _ _ Hrow Hok Hstep) as [Hok1 [Hcov1 Hg1]].
    destruct (IH Hrange _ _ Hok1 Hrun) as [Hok' [Hcov' Hg']].
    split; [exact Hok'|]. split.
    + intros p [<-|Hin]; [|now apply Hcov'].
      now apply covered_grows with acc1.
    + intros k Hk. apply Hg'. now apply Hg1.
Qed.

(** The pairs the nested loops visit carry the stored readings. *)
Lemma pairs_in_range (windows : list SessionDef) (readings : list SplRow) :
  Forall reading_in_range readings ->
  Forall (fun p : SessionDef * SplRow => reading_in_range (snd p))
         (flat_map (fun sd => map (pair sd) readings) windows).
Proof.
  intros H. induction windows as [|sd ws IH]; simpl; [constructor|].
  apply Forall_app. split; [|exact IH].
  apply Forall_map. simpl. exact H.
Qed.

(** A pass in which every key is already stored prepares nothing. *)
Lemma pass_nothing_new (existing : list Key) (pairs : list (SessionDef * SplRow)) :
  (forall p, In p pairs -> covered existing ([], []) p) ->
  foldM (fun acc p => tag existing (fst p) acc (snd p)) pairs ([], [])
  = Some ([], []).
Proof.
  induction pairs as [|[sd row] rest IH]; intros Hcov; simpl; [reflexivity|].
  pose proof (Hcov (sd, row) (or_introl eq_refl)) as H. unfold covered in H.
  simpl in H. rewrite tag_candidate.
  destruct (candidate sd row) as [[k|]|]; [| |contradiction].
  - destruct H as [H|H]; [discriminate|]. simpl. rewrite H. simpl.
    apply IH. intros p Hp. apply Hcov. now right.
  - apply IH. intros p Hp. apply Hcov. now right.
Qed.

(** [INSERT OR IGNORE] keeps what is stored, and every row handed to it is
    afterwards stored or collides with a stored row. *)
Lemma insert_keeps (data : list SessionRow) :
  forall table r, In r table -> In r (fold_left insert_or_ignore data table).
Proof.
  induction data as [|a d IH]; intros table r H; simpl; [exact H|].
  apply IH. unfold insert_or_ignore.
  destruct (existsb (collides a) table); [exact H|].
  apply in_or_app. now left.
Qed.

Lemma insert_represents (data : list SessionRow) :
  forall table r,
    In r data ->
    exists r', In r' (fold_left insert_or_ignore data table)
               /\ (r' = r \/ collides r r' = true).
Proof.
  induction data as [|a d IH]; intros table r H; simpl; [destruct H|].
  destruct H as [->|H]; [|now apply IH].
  unfold insert_or_ignore at 2.
  destruct (existsb (collides r) table) eqn:E.
  - apply existsb_exists in E. destruct E as [r' [Hin Hc]].
    exists r'. split; [now apply insert_keeps|now right].
  - exists r. split; [|now left].
    apply insert_keeps, in_or_app. right. now left.
Qed.

Lemma stored_key_rounded (r : SessionRow) :
  rounded (s_lceq r) -> stored_key r = key_of r.
Proof.
  intros [x [Hrange Hx]]. unfold stored_key, key_of.
  now rewrite Hx, sql_round1_round1.
Qed.

Lemma stored_key_collides (r r' : SessionRow) :
  rounded (s_lceq r) -> collides r r' = true -> stored_key r' = key_of r.
Proof.
  intros Hr. unfold collides. rewrite !andb_true_iff.
  intros [[[[Hs Hd] Ht] Hq] Ho].
  apply String.eqb_eq in Hs, Hd, Ht. apply Qeq_bool_iff in Hq.
  rewrite <- (stored_key_rounded r Hr). unfold stored_key.
  rewrite Hs, Hd, Ht, (sql_round1_comp _ _ Hq).
  destruct (s_source r) as [x|], (s_source r') as [y|]; try discriminate.
  apply String.eqb_eq in Ho. now subst.
Qed.

(** After the prepared rows are inserted, every pair the pass covered is
    covered by the stored keys alone. *)
Lemma covered_after_insert (d : Database) (acc : Tagging)
  (p : SessionDef * SplRow) :
  tagging_ok (existing_session_keys d) acc ->
  covered (existing_session_keys d) acc p ->
  covered (existing_session_keys (insert_sessions (snd acc) d)) ([], []) p.
Proof.
  intros [Hseen [_ Hrnd]]. unfold covered.
  destruct (candidate (fst p) (snd p)) as [[k|]|]; auto.
  intros H. right. unfold key_in, existing_session_keys, insert_sessions. simpl.
  apply existsb_exists. destruct H as [H|H].
  - rewrite Hseen, key_in_rev in H. apply existsb_exists in H.
    destruct H as [k' [Hin Hk]]. apply in_map_iff in Hin.
    destruct Hin as [r [<- Hr]].
    destruct (insert_represents (snd acc) (sessions d) r Hr) as [r' [Hin' Hcase]].
    exists (stored_key r'). split; [now apply in_map|].
    rewrite Forall_forall in Hrnd.
    destruct Hcase as [->|Hc].
    + now rewrite stored_key_rounded by auto.
    + now rewrite (stored_key_collides r r') by auto.
  - apply existsb_exists in H. destruct H as [k' [Hin Hk]].
    apply in_map_iff in Hin. destruct Hin as [r [<- Hr]].
    exists (stored_key r). split; [|exact Hk].
    apply in_map. now apply insert_keeps.
Qed.

(** C3.  On a store whose readings have levels in range (below 10^14 in
    absolute value): when a tagging pass completes, every row it prepared
    had a key that was neither stored in [sessions] nor among the keys of
    the rows prepared before it in the same pass; and a second pass over
    the same readings and windows, run on the store the first one left,
    prepares no row and leaves the store as it is. *)
Theorem C3_second_tagging_pass_prepares_nothing
  (windows : list SessionDef) (d d' : Database) (data : list SessionRow) :
  readings_in_range d ->
  tagging_pass windows d = Some (d', data) ->
  all_new (existing_session_keys d) [] data
  /\ tagging_pass windows d' = Some (d', []).
Proof.
  unfold tagging_pass, tag_sessions. rewrite nested_loops_flat.
  intros Hrange.
  match goal with
  | |- context [foldM ?f ?l ?s] =>
      destruct (foldM f l s) as [[seen data0]|] eqn:Hrun; [|discriminate]
  end.
  intros H. injection H as <- <-.
  assert (Hok0 : tagging_ok (existing_session_keys d) ([], [])).
  { repeat split; simpl; auto. }
  destruct (pass_invariant _ _ (pairs_in_range windows _ Hrange) _ _ Hok0 Hrun)
    as [Hok [Hcov _]].
  split; [apply Hok|].
  rewrite nested_loops_flat. simpl spl_data.
  rewrite pass_nothing_new; [reflexivity|].
  intros p Hp. apply (covered_after_insert d (seen, data0) p Hok). now apply Hcov.
Qed.

(** The two readings of the example store, 95.0 and 81.2, are in range. *)
Lemma two_readings_in_range : readings_in_range two_readings.
Proof.
  unfold readings_in_range, two_readings. cbn [spl_data].
  repeat (apply Forall_cons;
          [intros q H; injection H as <-; split; reflexivity|]).
  apply Forall_nil.
Defined.

(** On the store with two readings the script's own windows tag the Friday
    23:30 reading once; the second pass tags nothing. *)
Lemma C3_witness_two_readings :
  readings_in_range two_readings
  /\ exists d' data,
       tagging_pass SESSIONS two_readings = Some (d', data)
       /\ map s_session data = ["Friday_21-00"]
       /\ tagging_pass SESSIONS d' = Some (d', []).
Proof.
  assert (Hrange : readings_in_range two_readings) by exact two_readings_in_range.
  split; [exact Hrange|].
  destruct (tagging_pass SESSIONS two_readings) as [[d' data]|] eqn:Hpass;
    [|vm_compute in Hpass; discriminate].
  exists d', data. split; [reflexivity|]. split.
  - vm_compute in Hpass. injection Hpass as _ <-. reflexivity.
  - exact (proj2 (C3_second_tagging_pass_prepares_nothing
                    SESSIONS two_readings d' data Hrange Hpass)).
Defined.

(** * Further properties of the scripts *)

(** ** Substrings *)

Lemma prefix_app (needle hay : string) :
  prefix needle hay = true <-> exists post, hay = (needle ++ post)%string.
Proof.
  revert hay. induction needle as [|a n IH]; intros hay.
  - split; [intros _; now exists hay|now destruct hay].
  - destruct hay as [|b h]; simpl.
    + split; [discriminate|]. intros [post H]. discriminate.
    + destruct (ascii_dec a b) as [->|Hne].
      * rewrite IH. split; intros [post H]; exists post.
        -- now rewrite H.
        -- now injection H.
      * split; [discriminate|]. intros [post H]. injection H as H1 _. congruence.
Qed.

(** [contains] is Python's [in] on strings. *)
Lemma contains_spec (needle hay : string) :
  contains needle hay = true
  <-> exists pre post, hay = (pre ++ needle ++ post)%string.
Proof.
  induction hay as [|c h IH].
  - cbn [contains]. rewrite orb_false_r, prefix_app. split.
    + intros [post H]. now exists ""%string, post.
    + intros [pre [post H]]. destruct pre; [now exists post|discriminate].
  - cbn [contains]. rewrite orb_true_iff, prefix_app, IH. split.
    + intros [[post H]|[pre [post H]]].
      * now exists ""%string, post.
      * exists (String c pre), post. simpl. now rewrite H.
    + intros [pre [post H]]. destruct pre as [|c' pre]; simpl in H.
      * left. now exists post.
      * right. injection H as _ H. now exists pre, post.
Qed.

(** ** The file loop: rejected files, the processed list, provenance *)

Section IngestionMore.

Variable md5_hexdigest : list Byte.byte -> string.
Variable readlines : list Byte.byte -> option (list string).
Variable read_csv : list Byte.byte -> nat -> Sep -> option RawFrame.
Variable strptime : string -> option datetime.

Local Abbreviation md5sum := (file_md5sum md5_hexdigest).
Local Abbreviation valid := (is_valid_rew_file readlines).
Local Abbreviation parse := (parse_header_and_data readlines read_csv strptime).
Local Abbreviation verdict := (examine readlines read_csv strptime).
Local Abbreviation ingest := (ingest_file md5_hexdigest readlines read_csv strptime).
Local Abbreviation ingest_all :=
  (ingest_files md5_hexdigest readlines read_csv strptime).

Lemma ingest_files_app (st : Run) (l1 l2 : list File) :
  ingest_all st (l1 ++ l2) = ingest_all (ingest_all st l1) l2.
Proof. unfold ingest_files. apply fold_left_app. Qed.

(** [bad_files] only grows. *)
Lemma bad_files_kept (path : string) (files : list File) :
  forall st, In path (bad_files st) -> In path (bad_files (ingest_all st files)).
Proof.
  induction files as [|f rest IH]; intros st H; simpl; [exact H|].
  apply IH. rewrite bad_files_ingest_file.
  destruct (already_processed _ _); [exact H|].
  destruct (verdict f); try exact H; apply in_or_app; now left.
Qed.

Lemma verdict_rejected (f : File) :
  valid f = false \/ parse f = None ->
  verdict f = Invalid \/ verdict f = Unparsed.
Proof.
  unfold examine. destruct (valid f); simpl.
  - intros [H|H]; [discriminate|]. rewrite H. now right.
  - intros _. now left.
Qed.

(** X1.  A file met while its checksum is not recorded, and which fails
    validation or whose parsing raises, is appended to [bad_files] with the
    store left as it was; it is still listed when the loop ends, so the
    report is written and contains it. *)
Theorem X1_invalid_or_unparsed_file_reported
  (st : Run) (before after : list File) (f : File)
  (previous : option (list string)) :
  already_processed (md5sum f) (db (ingest_all st before)) = false ->
  valid f = false \/ parse f = None ->
  db (ingest (ingest_all st before) f) = db (ingest_all st before)
  /\ bad_files (ingest (ingest_all st before) f)
     = bad_files (ingest_all st before) ++ [fp f]
  /\ exists report,
      bad_files_report previous (ingest_all st (before ++ f :: after))
      = Some report
      /\ In (fp f) report.
Proof.
  intros Hnew Hrej. apply verdict_rejected in Hrej.
  set (st1 := ingest_all st before) in *.
  assert (Hb : bad_files (ingest st1 f) = bad_files st1 ++ [fp f]).
  { rewrite bad_files_ingest_file, Hnew. now destruct Hrej as [-> | ->]. }
  split; [|split; [exact Hb|]].
  - rewrite db_ingest_file, Hnew. now destruct Hrej as [-> | ->].
  - assert (Hin : In (fp f) (bad_files (ingest_all st (before ++ f :: after)))).
    { rewrite ingest_files_app. simpl. apply bad_files_kept.
      fold st1. rewrite Hb. apply in_or_app. right. now left. }
    unfold bad_files_report.
    destruct (bad_files (ingest_all st (before ++ f :: after))) as [|p ps] eqn:E.
    + destruct Hin.
    + exists (p :: ps). split; [reflexivity|exact Hin].
Qed.

Lemma not_processed_not_in (h : string) (d : Database) :
  already_processed h d = false -> ~ In h (map fst (processed_files d)).
Proof.
  unfold already_processed. intros H Hin.
  apply in_map_iff in Hin. destruct Hin as [rec [E Hin]].
  assert (Ht : existsb (fun rec => String.eqb (fst rec) h) (processed_files d) = true).
  { apply existsb_exists. exists rec. split; [exact Hin|].
    rewrite E. apply String.eqb_refl. }
  congruence.
Qed.

Lemma processed_step (st : Run) (f : File) :
  NoDup (map fst (processed_files (db st))) ->
  NoDup (map fst (processed_files (db (ingest st f))))
  /\ (List.length (processed_files (db (ingest st f))) + processed_count st
      = List.length (processed_files (db st)) + processed_count (ingest st f))%nat.
Proof.
  intros Hnd. rewrite ingest_file_examine. cbn zeta.
  destruct (already_processed (md5sum f) (db st)) eqn:Hseen; [now split|].
  destruct (verdict f); try (now split).
  simpl. rewrite map_app, length_app. simpl. split; [|lia].
  apply NoDup_app; [exact Hnd|repeat constructor; intros []|].
  intros h Hin [<-|[]]. now apply (not_processed_not_in _ _ Hseen).
Qed.

(** X2.  If no checksum is recorded twice when the loop starts, none is
    when it ends (the primary key of [processed_files] is never hit), and
    [processed_count] has grown by the number of records added. *)
Theorem X2_processed_files_distinct_and_counted (st : Run) (files : list File) :
  NoDup (map fst (processed_files (db st))) ->
  NoDup (map fst (processed_files (db (ingest_all st files))))
  /\ (List.length (processed_files (db (ingest_all st files))) + processed_count st
      = List.length (processed_files (db st))
        + processed_count (ingest_all st files))%nat.
Proof.
  revert st. induction files as [|f rest IH]; intros st Hnd; simpl.
  - split; [exact Hnd|reflexivity].
  - destruct (processed_step st f Hnd) as [Hnd1 Hc1].
    destruct (IH _ Hnd1) as [Hnd2 Hc2]. split; [exact Hnd2|lia].
Qed.

Lemma extract_location_enum (f : File) :
  extract_location readlines f = "Balcony"
  \/ extract_location readlines f = "Nightclub".
Proof.
  unfold extract_location. destruct (readlines (bytes f)) as [lines|]; [|now left].
  destruct (nth_error lines 1) as [line|]; [|now left].
  destruct (negb _); [now left|]. destruct (existsb _ _); [now right|now left].
Qed.

Lemma ingest_files_added_from (P : File -> SplRow -> Prop) :
  (forall f frame, verdict f = Accepted frame ->
                   Forall (P f) (map to_sql_row (rows frame))) ->
  forall files st,
    exists added,
      spl_data (db (ingest_all st files)) = spl_data (db st) ++ added
      /\ Forall (fun r => exists f, In f files /\ P f r) added.
Proof.
  intros HP files. induction files as [|f rest IH]; intros st; simpl.
  - exists []. rewrite app_nil_r. auto.
  - destruct (IH (ingest st f)) as [later [Hl Pl]].
    destruct (spl_data_ingest_file md5_hexdigest readlines read_csv strptime st f)
      as [now_ [Hn Hcase]].
    exists (now_ ++ later). split.
    + rewrite app_assoc, <- Hn. exact Hl.
    + apply Forall_app. split.
      * destruct Hcase as [->|[frame [Hv ->]]]; [constructor|].
        eapply Forall_impl; [|exact (HP f frame Hv)].
        intros r Hr. exists f. split; [now left|exact Hr].
      * eapply Forall_impl; [|exact Pl].
        intros r [g [Hg Hr]]. exists g. split; [now right|exact Hr].
Qed.

(** X3.  Every row a run appends to [spl_data] carries the path of one of
    the files of the run as its [source] and that file's location as its
    [location], and the location is either Balcony or Nightclub. *)
Theorem X3_inserted_rows_source_and_location (st : Run) (files : list File) :
  exists added,
    spl_data (db (ingest_all st files)) = spl_data (db st) ++ added
    /\ Forall
         (fun r =>
            exists f,
              In f files
              /\ spl_source r = Some (fp f)
              /\ spl_location r = Some (extract_location readlines f)
              /\ (spl_location r = Some "Balcony"
                  \/ spl_location r = Some "Nightclub"))
         added.
Proof.
  apply (ingest_files_added_from
           (fun f r =>
              spl_source r = Some (fp f)
              /\ spl_location r = Some (extract_location readlines f)
              /\ (spl_location r = Some "Balcony"
                  \/ spl_location r = Some "Nightclub"))).
  intros f frame Hv.
  destruct (accepted_frame readlines read_csv strptime f frame Hv)
    as [df [_ [_ [_ Hrows]]]].
  rewrite Hrows, !map_map. apply Forall_map, Forall_forall. intros r _.
  unfold to_sql_row. cbn [spl_source spl_location].
  rewrite get_set_cell_other by reflexivity.
  rewrite !get_set_cell_value. simpl.
  split; [reflexivity|]. split; [reflexivity|].
  destruct (extract_location_enum f) as [-> | ->]; auto.
Qed.

(** X5.  Validation looks at the first fifteen lines only: two readable
    files that agree on them get the same answer. *)
Theorem X5_validation_reads_fifteen_lines (f g : File) (lf lg : list string) :
  readlines (bytes f) = Some lf ->
  readlines (bytes g) = Some lg ->
  firstn 15 lf = firstn 15 lg ->
  valid f = valid g.
Proof.
  intros Hf Hg E. unfold is_valid_rew_file. rewrite Hf, Hg, E.
  destruct lf as [|a lf], lg as [|b lg]; try discriminate; [reflexivity|].
  simpl in E. injection E as -> _. reflexivity.
Qed.

(** X6.  A file that cannot be read, or has no line at all, is not valid;
    neither is a file that mentions [VirtualMic.txt], [LAS] or [LAeq]
    anywhere in one of its first fifteen lines, whatever else its header
    says. *)
Theorem X6_validation_rejections (f : File) :
  (readlines (bytes f) = None \/ readlines (bytes f) = Some [] -> valid f = false)
  /\ (forall lines l pre post marker,
        readlines (bytes f) = Some lines ->
        In l (firstn 15 lines) ->
        marker = "VirtualMic.txt" \/ marker = "LAS" \/ marker = "LAeq" ->
        l = (pre ++ marker ++ post)%string ->
        valid f = false).
Proof.
  unfold is_valid_rew_file. split.
  - intros [-> | ->]; reflexivity.
  - intros lines l pre post marker Hl Hin Hm El. rewrite Hl.
    assert (Hc : contains marker l = true)
      by (apply contains_spec; now exists pre, post).
    destruct (existsb (contains "VirtualMic.txt") (firstn 15 lines)) eqn:E1;
      [reflexivity|].
    destruct (existsb (fun l0 => contains "LAS" l0 || contains "LAeq" l0)
                (firstn 15 lines)) eqn:E2; [reflexivity|].
    exfalso. destruct Hm as [->|Hm].
    + assert (existsb (contains "VirtualMic.txt") (firstn 15 lines) = true)
        by (apply existsb_exists; now exists l).
      congruence.
    + assert (existsb (fun l0 => contains "LAS" l0 || contains "LAeq" l0)
                (firstn 15 lines) = true).
      { apply existsb_exists. exists l. split; [exact Hin|].
        destruct Hm as [-> | ->]; rewrite Hc; [reflexivity|apply orb_true_r]. }
      congruence.
Qed.

Lemma find_data_start_none (lines : list string) :
  forall i,
    (forall l, In l lines -> contains "Time[s]" l = false) ->
    find_data_start i lines = 8%nat.
Proof.
  induction lines as [|l rest IH]; intros i H; simpl; [reflexivity|].
  rewrite (H l (or_introl eq_refl)). apply IH. intros x Hx. apply H. now right.
Qed.

Lemma find_data_start_first (pre : list string) (l : string) (post : list string) :
  forall i,
    (forall x, In x pre -> contains "Time[s]" x = false) ->
    contains "Time[s]" l = true ->
    find_data_start i (pre ++ l :: post) = (i + List.length pre)%nat.
Proof.
  induction pre as [|p rest IH]; intros i Hpre Hl; simpl.
  - rewrite Hl. lia.
  - rewrite (Hpre p (or_introl eq_refl)).
    rewrite IH; [lia| |exact Hl]. intros x Hx. apply Hpre. now right.
Qed.

Lemma parse_needs_first_record (f : File) (lines : list string) :
  readlines (bytes f) = Some lines ->
  (List.length lines <= find_data_start 0 lines + 1)%nat ->
  parse f = None.
Proof.
  intros Hl Hlen. unfold parse_header_and_data. rewrite Hl.
  destruct (find (prefix "Date:") lines) as [date_line|]; [|reflexivity].
  destruct (after_colon date_line) as [rest|]; [|reflexivity].
  destruct (strptime (strip rest)) as [start_dt|]; [|reflexivity].
  apply nth_error_None in Hlen. now rewrite Hlen.
Qed.

(** X19.  The records are taken to start after the first line that
    mentions [Time[s]], or after line 8 when no line does; parsing raises
    when that column line is the last line of the file, and when there is
    no column line and the file has at most nine lines. *)
Theorem X19_data_start_and_missing_records (f : File) (lines : list string) :
  readlines (bytes f) = Some lines ->
  (forall pre l post,
      lines = pre ++ l :: post ->
      (forall x, In x pre -> contains "Time[s]" x = false) ->
      contains "Time[s]" l = true ->
      find_data_start 0 lines = List.length pre
      /\ (post = [] -> parse f = None))
  /\ ((forall l, In l lines -> contains "Time[s]" l = false) ->
      find_data_start 0 lines = 8%nat
      /\ ((List.length lines <= 9)%nat -> parse f = None)).
Proof.
  intros Hl. split.
  - intros pre l post E Hpre Hc.
    assert (Hs : find_data_start 0 lines = List.length pre)
      by (rewrite E; now rewrite find_data_start_first).
    split; [exact Hs|]. intros ->.
    apply (parse_needs_first_record f lines Hl). rewrite Hs, E, length_app.
    simpl. lia.
  - intros Hnone.
    assert (Hs : find_data_start 0 lines = 8%nat)
      by (now apply find_data_start_none).
    split; [exact Hs|]. intros Hlen.
    apply (parse_needs_first_record f lines Hl). rewrite Hs. lia.
Qed.

Lemma append_assoc (a b c : string) :
  ((a ++ b) ++ c = a ++ (b ++ c))%string.
Proof. induction a as [|x a IH]; simpl; [reflexivity|now rewrite IH]. Qed.

Lemma contains_trans (a b s : string) :
  contains a b = true -> contains b s = true -> contains a s = true.
Proof.
  rewrite !contains_spec. intros [p1 [q1 ->]] [p2 [q2 ->]].
  exists (p2 ++ p1)%string, (q1 ++ q2)%string.
  now rewrite !append_assoc.
Qed.

(** X20.  The location is Nightclub exactly when the file can be read, has
    a second line, and that line, lower-cased, contains "note" and one of
    "prohibition", "club" or "site" (the keyword "nightclub" adds nothing
    to "club"); in every other case, a file of fewer than two lines
    included, it is Balcony. *)
Theorem X20_location_from_second_line (f : File) :
  (extract_location readlines f = "Nightclub"
   <-> exists lines line,
        readlines (bytes f) = Some lines
        /\ nth_error lines 1 = Some line
        /\ contains "note" (lower line) = true
        /\ (contains "prohibition" (lower line) = true
            \/ contains "club" (lower line) = true
            \/ contains "site" (lower line) = true))
  /\ (extract_location readlines f <> "Nightclub" ->
      extract_location readlines f = "Balcony").
Proof.
  split.
  - unfold extract_location.
    destruct (readlines (bytes f)) as [lines|].
    2:{ split; [discriminate|]. intros [l [x [H _]]]. discriminate. }
    destruct (nth_error lines 1) as [line|] eqn:Hline.
    2:{ split; [discriminate|]. intros [l [x [H1 [H2 _]]]].
        injection H1 as <-. congruence. }
    assert (Hkeys : existsb (fun key => contains key (lower line))
                      ["nightclub"; "prohibition"; "club"; "site"] = true
                    <-> contains "prohibition" (lower line) = true
                        \/ contains "club" (lower line) = true
                        \/ contains "site" (lower line) = true).
    { cbn [existsb]. rewrite !orb_true_iff. split.
      - intros [H|[H|[H|[H|H]]]]; auto; [|discriminate]. right. left.
        apply contains_trans with "nightclub"; [reflexivity|exact H].
      - intros [H|[H|H]]; auto. }
    destruct (contains "note" (lower line)) eqn:Hn; cbn [negb].
    + destruct (existsb _ _) eqn:Hk.
      * split; [|reflexivity]. intros _. exists lines, line.
        split; [reflexivity|]. split; [exact Hline|]. split; [exact Hn|].
        now apply Hkeys.
      * split; [discriminate|]. intros [l [x [H1 [H2 [_ H3]]]]].
        injection H1 as <-. rewrite Hline in H2. injection H2 as <-.
        apply Hkeys in H3. discriminate.
    + split; [discriminate|]. intros [l [x [H1 [H2 [H3 _]]]]].
      injection H1 as <-. rewrite Hline in H2. injection H2 as <-. congruence.
  - intros H. destruct (extract_location_enum f) as [E|E]; [exact E|contradiction].
Qed.

End IngestionMore.

(** ** The example files again *)

Lemma X1_witness_loopback_file :
  exists report,
    bad_files_report None
      (ingest_files toy_md5 toy_readlines toy_read_csv toy_strptime
         (start_run empty_db) ([full_file] ++ virtual_file :: [short_file]))
    = Some report
    /\ In (fp virtual_file) report.
Proof.
  assert (Hnew : already_processed (file_md5sum toy_md5 virtual_file)
                   (db (ingest_files toy_md5 toy_readlines toy_read_csv
                          toy_strptime (start_run empty_db) [full_file]))
                 = false) by (vm_compute; reflexivity).
  assert (Hrej : is_valid_rew_file toy_readlines virtual_file = false
                 \/ parse_header_and_data toy_readlines toy_read_csv toy_strptime
                      virtual_file = None)
    by (left; vm_compute; reflexivity).
  exact (proj2 (proj2 (X1_invalid_or_unparsed_file_reported
                         toy_md5 toy_readlines toy_read_csv toy_strptime
                         (start_run empty_db) [full_file] [short_file]
                         virtual_file None Hnew Hrej))).
Defined.

Lemma X2_witness_three_files :
  NoDup
    (map fst
       (processed_files
          (db (ingest_files toy_md5 toy_readlines toy_read_csv toy_strptime
                 (start_run empty_db) [full_file; full_copy; quiet_file])))).
Proof.
  apply (X2_processed_files_distinct_and_counted
           toy_md5 toy_readlines toy_read_csv toy_strptime
           (start_run empty_db) [full_file; full_copy; quiet_file]).
  simpl. constructor.
Defined.

Lemma X5_witness_same_header :
  is_valid_rew_file toy_readlines full_file
  = is_valid_rew_file toy_readlines full_copy.
Proof.
  exact (X5_validation_reads_fifteen_lines toy_readlines full_file full_copy
           _ _ eq_refl eq_refl eq_refl).
Defined.

Lemma X6_witness_loopback_file :
  is_valid_rew_file toy_readlines virtual_file = false.
Proof.
  destruct (X6_validation_rejections toy_readlines virtual_file) as [_ H].
  apply (H (split_lines "" virtual_log)
           ("Mic/meter cal: VirtualMic.txt" ++ newline)%string
           "Mic/meter cal: " newline "VirtualMic.txt").
  - vm_compute. reflexivity.
  - vm_compute. right. right. left. reflexivity.
  - left. reflexivity.
  - reflexivity.
Defined.

(** ** Session tagging: where rows come from, what is stored, when it
    raises *)

Lemma candidate_tagged_from (sd : SessionDef) (row : SplRow) (k : Key) :
  candidate sd row = Some (Some k) ->
  tagged_from sd row (prepared_row k (spl_location row)).
Proof.
  unfold candidate, tagged_from. destruct sd as [[[label wd] start] end_].
  destruct (spl_timestamp row) as [ts|]; [|discriminate].
  destruct (session_includes ts wd start end_) eqn:Hin; [|discriminate].
  destruct (spl_lceq row) as [level|]; [|discriminate].
  intros H. injection H as <-. exists ts, level. auto.
Qed.

Lemma in_pairs (windows : list SessionDef) (readings : list SplRow)
  (p : SessionDef * SplRow) :
  In p (flat_map (fun sd => map (pair sd) readings) windows)
  <-> In (fst p) windows /\ In (snd p) readings.
Proof.
  rewrite in_flat_map. split.
  - intros [sd [Hsd Hp]]. apply in_map_iff in Hp. destruct Hp as [row [<- Hrow]].
    now split.
  - intros [Hsd Hrow]. exists (fst p). split; [exact Hsd|].
    apply in_map_iff. exists (snd p). split; [now destruct p|exact Hrow].
Qed.

Lemma pass_rows_tagged (existing : list Key) (all pairs : list (SessionDef * SplRow)) :
  forall acc acc',
    incl pairs all ->
    Forall (fun r => exists p, In p all /\ tagged_from (fst p) (snd p) r) (snd acc) ->
    foldM (fun acc p => tag existing (fst p) acc (snd p)) pairs acc = Some acc' ->
    Forall (fun r => exists p, In p all /\ tagged_from (fst p) (snd p) r) (snd acc').
Proof.
  induction pairs as [|[sd row] rest IH]; intros acc acc' Hincl Hacc Hrun;
    simpl in Hrun.
  - now injection Hrun as <-.
  - destruct (tag existing sd acc row) as [acc1|] eqn:Hstep; [|discriminate].
    apply (IH acc1 acc'); [intros p Hp; apply Hincl; now right| |exact Hrun].
    rewrite tag_candidate in Hstep.
    destruct (candidate sd row) as [[k|]|] eqn:C; [| |discriminate].
    + destruct (negb _ && negb _); injection Hstep as <-; [|exact Hacc].
      simpl. apply Forall_app. split; [exact Hacc|].
      constructor; [|constructor]. exists (sd, row). split.
      * apply Hincl. now left.
      * now apply candidate_tagged_from.
    + now injection Hstep as <-.
Qed.

(** X7.  Every row a completed tagging pass prepares is the tag of one of
    the stored readings for one of the windows: that reading's timestamp
    is inside that window, and the row holds the window's label, the
    [%Y-%m-%d] and [%H:%M:%S.%f] texts of the timestamp, the level rounded
    to one decimal, the reading's source and location, and a NULL plot. *)
Theorem X7_prepared_rows_come_from_readings_in_windows
  (windows : list SessionDef) (d : Database) (seen : list Key)
  (data : list SessionRow) :
  tag_sessions windows d = Some (seen, data) ->
  Forall (fun r => exists sd row,
                     In sd windows /\ In row (spl_data d) /\ tagged_from sd row r)
         data.
Proof.
  unfold tag_sessions. rewrite nested_loops_flat. intros Hrun.
  pose proof (pass_rows_tagged _ _ _ ([], []) (seen, data)
                (incl_refl _) (Forall_nil _) Hrun) as H.
  simpl in H. eapply Forall_impl; [|exact H].
  intros r [[sd row] [Hp Ht]]. apply in_pairs in Hp.
  exists sd, row. simpl in *. tauto.
Qed.

Lemma fresh_rows_all_inserted (existing : list Key) (data : list SessionRow) :
  forall table earlier,
    (forall e, In e table -> In (stored_key e) (existing ++ earlier)) ->
    all_new existing earlier data ->
    Forall (fun r => rounded (s_lceq r)) data ->
    fold_left insert_or_ignore data table = table ++ data.
Proof.
  induction data as [|r rest IH]; intros table earlier Htab Hnew Hrnd; simpl.
  - now rewrite app_nil_r.
  - destruct Hnew as [HE [Hear Hrest]].
    apply Forall_cons_iff in Hrnd. destruct Hrnd as [Hr Hrnd].
    assert (Hfree : existsb (collides r) table = false).
    { destruct (existsb (collides r) table) eqn:E; [|reflexivity].
      apply existsb_exists in E. destruct E as [e [He Hc]].
      pose proof (stored_key_collides r e Hr Hc) as Hk.
      pose proof (Htab e He) as Hin. rewrite Hk in Hin.
      apply In_key_in in Hin. unfold key_in in *.
      rewrite existsb_app, HE, Hear in Hin. discriminate. }
    unfold insert_or_ignore at 2. rewrite Hfree.
    rewrite (IH (table ++ [r]) (key_of r :: earlier)); [|  |exact Hrest|exact Hrnd].
    + now rewrite <- app_assoc.
    + intros e He. apply in_app_or in He. destruct He as [He|[<-|[]]].
      * apply Htab in He. apply in_app_or in He. apply in_or_app.
        destruct He; [now left|right; now right].
      * rewrite (stored_key_rounded _ Hr). apply in_or_app. right. now left.
Qed.

(** X8.  On a store whose readings have levels in range, the
    [INSERT OR IGNORE] at the end of a completed tagging pass ignores
    nothing: the prepared rows are appended to [sessions], all of them and
    in order, so the row count the script prints is the number of rows it
    stored. *)
Theorem X8_every_prepared_row_is_inserted
  (windows : list SessionDef) (d d' : Database) (data : list SessionRow) :
  readings_in_range d ->
  tagging_pass windows d = Some (d', data) ->
  sessions d' = sessions d ++ data
  /\ spl_data d' = spl_data d
  /\ processed_files d' = processed_files d.
Proof.
  unfold tagging_pass, tag_sessions. rewrite nested_loops_flat.
  intros Hrange.
  match goal with
  | |- context [foldM ?f ?l ?s] =>
      destruct (foldM f l s) as [[seen data0]|] eqn:Hrun; [|discriminate]
  end.
  intros H. injection H as <- <-.
  assert (Hok0 : tagging_ok (existing_session_keys d) ([], [])).
  { repeat split; simpl; auto. }
  destruct (pass_invariant _ _ (pairs_in_range windows _ Hrange) _ _ Hok0 Hrun)
    as [[_ [Hnew Hrnd]] _].
  split; [|split; reflexivity]. simpl.
  apply (fresh_rows_all_inserted (existing_session_keys d) data0 (sessions d) []);
    [|exact Hnew|exact Hrnd].
  intros e He. rewrite app_nil_r. now apply in_map.
Qed.

(** X9.  On a store whose readings have levels in range, after a
    completed tagging pass every stored reading that lies in one of the
    windows has its key among the keys read back from [sessions]. *)
Theorem X9_every_reading_in_a_window_is_tagged
  (windows : list SessionDef) (d d' : Database) (data : list SessionRow)
  (label : string) (wd : Z) (start end_ : time) (row : SplRow)
  (ts : datetime) (level : Q) :
  readings_in_range d ->
  tagging_pass windows d = Some (d', data) ->
  In (label, wd, start, end_) windows ->
  In row (spl_data d) ->
  spl_timestamp row = Some ts ->
  spl_lceq row = Some level ->
  session_includes ts wd start end_ = true ->
  key_in (label, strftime_date ts, strftime_time ts, round1 level, spl_source row)
         (existing_session_keys d') = true.
Proof.
  unfold tagging_pass, tag_sessions. rewrite nested_loops_flat.
  intros Hrange.
  match goal with
  | |- context [foldM ?f ?l ?s] =>
      destruct (foldM f l s) as [[seen data0]|] eqn:Hrun; [|discriminate]
  end.
  intros H Hsd Hrow Hts Hlv Hin. injection H as <- <-.
  assert (Hok0 : tagging_ok (existing_session_keys d) ([], [])).
  { repeat split; simpl; auto. }
  destruct (pass_invariant _ _ (pairs_in_range windows _ Hrange) _ _ Hok0 Hrun)
    as [Hok [Hcov _]].
  assert (Hp : In ((label, wd, start, end_), row)
                  (flat_map (fun sd => map (pair sd) (spl_data d)) windows))
    by (apply in_pairs; now split).
  pose proof (covered_after_insert d (seen, data0) _ Hok (Hcov _ Hp)) as Hc.
  unfold covered, candidate in Hc. simpl in Hc. rewrite Hts, Hin, Hlv in Hc.
  destruct Hc as [Hc|Hc]; [discriminate|exact Hc].
Qed.

Lemma foldM_completes {A S : Type} (f : S -> A -> option S) (l : list A) :
  (forall s a, In a l -> f s a <> None) -> forall s, foldM f l s <> None.
Proof.
  induction l as [|a rest IH]; intros H s; simpl; [discriminate|].
  destruct (f s a) as [s'|] eqn:E.
  - apply IH. intros s0 a0 H0. apply H. now right.
  - exfalso. apply (H s a); [now left|exact E].
Qed.

Lemma foldM_raises {A S : Type} (f : S -> A -> option S) (l : list A) (a : A) :
  In a l -> (forall s, f s a = None) -> forall s, foldM f l s = None.
Proof.
  induction l as [|b rest IH]; intros Hin H s; simpl; [destruct Hin|].
  destruct Hin as [->|Hin]; [now rewrite H|].
  destruct (f s b); [now apply IH|reflexivity].
Qed.

(** X10.  The tagging pass completes when every stored reading has a
    timestamp and a level; with at least one window, it raises as soon as
    some stored reading has a NULL timestamp, and then prepares and inserts
    nothing. *)
Theorem X10_tagging_completes_unless_null
  (windows : list SessionDef) (d : Database) :
  ((forall row, In row (spl_data d) ->
                spl_timestamp row <> None /\ spl_lceq row <> None) ->
   tag_sessions windows d <> None)
  /\ (windows <> [] ->
      (exists row, In row (spl_data d) /\ spl_timestamp row = None) ->
      tag_sessions windows d = None /\ tagging_pass windows d = None).
Proof.
  unfold tagging_pass, tag_sessions. rewrite nested_loops_flat. split.
  - intros Hall. apply foldM_completes. intros acc [sd row] Hp.
    apply in_pairs in Hp. destruct Hp as [_ Hrow]. simpl in *.
    destruct (Hall row Hrow) as [Hts Hlv]. rewrite tag_candidate.
    unfold candidate. destruct sd as [[[label wd] start] end_].
    destruct (spl_timestamp row) as [ts|]; [|congruence].
    destruct (session_includes ts wd start end_); [|discriminate].
    destruct (spl_lceq row) as [lv|]; [|congruence].
    destruct (negb _ && negb _); discriminate.
  - intros Hw [row [Hrow Hts]]. destruct windows as [|sd ws]; [congruence|].
    assert (Hnone : foldM (fun acc p => tag (existing_session_keys d) (fst p) acc (snd p))
                      (flat_map (fun sd => map (pair sd) (spl_data d)) (sd :: ws))
                      ([], []) = None).
    { apply (foldM_raises _ _ (sd, row)).
      - apply in_pairs. split; [now left|exact Hrow].
      - intros acc. simpl. unfold tag. destruct sd as [[[label wd] start] end_].
        now rewrite Hts. }
    now rewrite Hnone.
Qed.

Lemma X7_witness_two_readings :
  exists seen data,
    tag_sessions SESSIONS two_readings = Some (seen, data)
    /\ Forall (fun r => exists sd row,
                          In sd SESSIONS /\ In row (spl_data two_readings)
                          /\ tagged_from sd row r)
              data.
Proof.
  destruct (tag_sessions SESSIONS two_readings) as [[seen data]|] eqn:Hrun;
    [|vm_compute in Hrun; discriminate].
  exists seen, data. split; [reflexivity|].
  exact (X7_prepared_rows_come_from_readings_in_windows
           SESSIONS two_readings seen data Hrun).
Defined.

Lemma X8_witness_two_readings :
  readings_in_range two_readings
  /\ exists d' data,
       tagging_pass SESSIONS two_readings = Some (d', data)
       /\ sessions d' = sessions two_readings ++ data.
Proof.
  split; [exact two_readings_in_range|].
  destruct (tagging_pass SESSIONS two_readings) as [[d' data]|] eqn:Hpass;
    [|vm_compute in Hpass; discriminate].
  exists d', data. split; [reflexivity|].
  exact (proj1 (X8_every_prepared_row_is_inserted
                  SESSIONS two_readings d' data two_readings_in_range Hpass)).
Defined.

Lemma X9_witness_friday_reading :
  readings_in_range two_readings
  /\ exists d' data,
       tagging_pass SESSIONS two_readings = Some (d', data)
       /\ key_in ("Friday_21-00", "2025-05-02", "23:30:00.000000",
                  round1 (95 # 1), Some "20250502/night.txt")
                 (existing_session_keys d') = true.
Proof.
  split; [exact two_readings_in_range|].
  destruct (tagging_pass SESSIONS two_readings) as [[d' data]|] eqn:Hpass;
    [|vm_compute in Hpass; discriminate].
  exists d', data. split; [reflexivity|].
  apply (X9_every_reading_in_a_window_is_tagged
           SESSIONS two_readings d' data "Friday_21-00" 4
           (time_hm 21 0) (time_hms 23 59 59)
           (mkSplRow (Some friday_2330) (Some (95 # 1)) (Some (90 # 1))
              (Some (90 # 1)) (Some (90 # 1)) None (Some "20250502/night.txt")
              (Some "Balcony"))
           friday_2330 (95 # 1) two_readings_in_range Hpass).
  - simpl. tauto.
  - simpl. tauto.
  - reflexivity.
  - reflexivity.
  - reflexivity.
Defined.

Lemma X10_witness_null_timestamp :
  tag_sessions SESSIONS two_readings <> None
  /\ tagging_pass SESSIONS unstamped_reading = None.
Proof.
  split.
  - apply (proj1 (X10_tagging_completes_unless_null SESSIONS two_readings)).
    intros row [<-|[<-|[]]]; split; discriminate.
  - apply (proj2 (X10_tagging_completes_unless_null SESSIONS unstamped_reading)).
    + discriminate.
    + eexists. split; [now left|reflexivity].
Defined.

(** ** The script's windows *)

Lemma time_le_spec (a b : time) :
  time_le a b = true
  <-> (t_hour a < t_hour b
       \/ (t_hour a = t_hour b
           /\ (t_minute a < t_minute b
               \/ (t_minute a = t_minute b
                   /\ (t_second a < t_second b
                       \/ (t_second a = t_second b
                           /\ t_microsecond a <= t_microsecond b))))))%Z.
Proof.
  unfold time_le, time_cmp, lex.
  destruct (Z.compare_spec (t_hour a) (t_hour b));
    destruct (Z.compare_spec (t_minute a) (t_minute b));
    destruct (Z.compare_spec (t_second a) (t_second b));
    destruct (Z.compare_spec (t_microsecond a) (t_microsecond b));
    split; intros; (reflexivity || discriminate || lia).
Qed.

Lemma session_includes_plain (ts : datetime) (wd : Z) (start end_ : time) :
  time_le start end_ = true ->
  session_includes ts wd start end_
  = (weekday ts =? wd)%Z
    && (time_le start (dt_time ts) && time_le (dt_time ts) end_).
Proof. intros H. unfold session_includes. now rewrite H. Qed.

(** X11.  None of the script's twelve windows crosses midnight: for each of
    them the weekday is between 0 and 6, the start is not after the end,
    and a timestamp is inside exactly when it falls on that weekday with
    its time of day between start and end, both included.  The
    midnight-wrapping branch of [session_includes] is never taken. *)
Theorem X11_script_windows_do_not_wrap
  (label : string) (wd : Z) (start end_ : time) :
  In (label, wd, start, end_) SESSIONS ->
  (0 <= wd <= 6)%Z
  /\ time_le start end_ = true
  /\ forall ts,
      session_includes ts wd start end_
      = (weekday ts =? wd)%Z
        && (time_le start (dt_time ts) && time_le (dt_time ts) end_).
Proof.
  intros Hin.
  assert (H : (0 <= wd <= 6)%Z /\ time_le start end_ = true).
  { unfold SESSIONS in Hin. simpl in Hin.
    repeat (destruct Hin as [Hin|Hin];
            [injection Hin as <- <- <- <-; split; [lia|reflexivity]|]).
    destruct Hin. }
  destruct H as [Hwd Hle]. split; [exact Hwd|]. split; [exact Hle|].
  intros ts. now apply session_includes_plain.
Qed.

Ltac split_time_le :=
  repeat match goal with
         | |- context [time_le ?a ?b] =>
             let E := fresh "E" in
             destruct (time_le a b) eqn:E;
             [ apply time_le_spec in E
             | apply not_true_iff_false in E; rewrite time_le_spec in E ];
             cbn in E; try (exfalso; lia)
         end.

Lemma length_filter_sum {A : Type} (p : A -> bool) (l : list A) :
  List.length (filter p l) = list_sum (map (fun x => if p x then 1 else 0)%nat l).
Proof.
  induction l as [|a rest IH]; simpl; [reflexivity|].
  destruct (p a); simpl; now rewrite IH.
Qed.

(** The number of the script's windows open at weekday [w] and time of
    day [t]. *)
Lemma open_windows_count (w : Z) (t : time) :
  (0 <= w < 7)%Z ->
  (list_sum
     (map (fun sd : SessionDef =>
             let '(_, wd, start, end_) := sd in
             if (w =? wd)%Z && (time_le start t && time_le t end_)
             then 1 else 0)%nat
          SESSIONS) <= 2)%nat
  /\ (list_sum
        (map (fun sd : SessionDef =>
                let '(_, wd, start, end_) := sd in
                if (w =? wd)%Z && (time_le start t && time_le t end_)
                then 1 else 0)%nat
             SESSIONS) = 2%nat
      <-> t = time_hm 1 0 /\ (w = 4 \/ w = 5 \/ w = 6 \/ w = 0)%Z).
Proof.
  intros Hw. unfold SESSIONS. cbn [map list_sum].
  destruct t as [h m s u].
  assert (Hcase : (w = 0 \/ w = 1 \/ w = 2 \/ w = 3 \/ w = 4 \/ w = 5 \/ w = 6)%Z)
    by lia.
  unfold time_hm, time_hms.
  destruct Hcase as [->|[->|[->|[->|[->|[->| ->]]]]]];
    cbn -[time_le]; split_time_le; cbn;
    (split; [lia|]);
    (split;
     [ intros Hlen;
       first [ discriminate
             | assert (Ht : (h = 1 /\ m = 0 /\ s = 0 /\ u = 0)%Z) by lia;
               destruct Ht as [-> [-> [-> ->]]]; split; [reflexivity|lia] ]
     | intros [Ht Hwd];
       first [ reflexivity
             | exfalso; injection Ht as -> -> -> ->; lia
             | exfalso; lia ] ]).
Qed.

Lemma matching_sessions_count (ts : datetime) :
  List.length (matching_sessions ts)
  = list_sum
      (map (fun sd : SessionDef =>
              let '(_, wd, start, end_) := sd in
              if (weekday ts =? wd)%Z
                 && (time_le start (dt_time ts) && time_le (dt_time ts) end_)
              then 1 else 0)%nat
           SESSIONS).
Proof.
  unfold matching_sessions. rewrite length_filter_sum.
  unfold SESSIONS. cbn [map list_sum].
  now rewrite !session_includes_plain by reflexivity.
Qed.

(** X12.  A timestamp is inside at most two of the script's windows, and
    inside two exactly when it is 01:00:00.000000 on a Friday, Saturday,
    Sunday or Monday, where the 00:00-01:00 and 01:00-04:00 windows meet;
    such a reading is tagged twice. *)
Theorem X12_windows_overlap_only_at_one_oclock (ts : datetime) :
  (List.length (matching_sessions ts) <= 2)%nat
  /\ (List.length (matching_sessions ts) = 2%nat
      <-> dt_time ts = time_hm 1 0
          /\ (weekday ts = 4 \/ weekday ts = 5 \/ weekday ts = 6 \/ weekday ts = 0)%Z).
Proof.
  rewrite matching_sessions_count.
  apply open_windows_count, weekday_range.
Qed.

(** X13.  For a reading inside one of the script's windows the limit is
    90.0 exactly when it is a Friday or Saturday reading taken up to 01:00
    or from 21:00 on, or a Thursday or Sunday reading taken from 21:00 to
    23:59:00; every other reading in a window, among them Friday and
    Saturday after 01:00, Sunday and Monday before 04:00 and the last
    minute of Thursday and Sunday, is held to 80.0. *)
Theorem X13_limit_inside_the_windows (ts : datetime) :
  matching_sessions ts <> [] ->
  (limit_for ts = LIMIT_DAY \/ limit_for ts = LIMIT_NIGHT)
  /\ (limit_for ts = LIMIT_DAY
      <-> ((weekday ts = 4 \/ weekday ts = 5)%Z
           /\ (time_le (dt_time ts) (time_hm 1 0) = true
               \/ time_le (time_hm 21 0) (dt_time ts) = true))
          \/ ((weekday ts = 3 \/ weekday ts = 6)%Z
              /\ time_le (time_hm 21 0) (dt_time ts) = true
              /\ time_le (dt_time ts) (time_hm 23 59) = true)).
Proof.
  intros Hne.
  assert (Hlen : List.length (matching_sessions ts) <> 0%nat)
    by (destruct (matching_sessions ts); [congruence|discriminate]).
  revert Hlen. clear Hne. unfold matching_sessions. rewrite length_filter_sum.
  unfold SESSIONS. cbn [map list_sum].
  rewrite !session_includes_plain by reflexivity.
  unfold limit_for, is_day.
  pose proof (weekday_range ts) as Hw. revert Hw.
  generalize (weekday ts) as w. intros w Hw.
  destruct (dt_time ts) as [h m s u].
  assert (Hcase : (w = 0 \/ w = 1 \/ w = 2 \/ w = 3 \/ w = 4 \/ w = 5 \/ w = 6)%Z)
    by lia.
  unfold LIMIT_DAY, LIMIT_NIGHT, time_hm, time_hms.
  destruct Hcase as [->|[->|[->|[->|[->|[->| ->]]]]]];
    cbn -[time_le]; split_time_le; cbn; intros Hlen;
    try (exfalso; apply Hlen; reflexivity);
    (split; [auto|]);
    (split; [intros Hx; first [discriminate Hx | right; split; [lia|auto]
                              | left; split; [lia|auto] ]
            | intros [[Hd Ht]|[Hd [Ht1 Ht2]]];
              first [reflexivity | exfalso; lia | exfalso; destruct Ht; discriminate
                    | exfalso; discriminate ] ]).
Qed.

Lemma X13_witness_friday_evening :
  limit_for friday_2330 = LIMIT_DAY /\ limit_for thursday_235930 = LIMIT_NIGHT.
Proof.
  split.
  - apply (proj2 (X13_limit_inside_the_windows friday_2330 ltac:(discriminate))).
    left. split; [left; reflexivity|right; reflexivity].
  - destruct (X13_limit_inside_the_windows thursday_235930 ltac:(discriminate))
      as [[H|H] Hiff]; [|exact H].
    apply Hiff in H. destruct H as [[[H|H] _]|[_ [_ H]]]; discriminate.
Defined.

(** ** Mapping readings to session instances *)

Lemma lex_eq (c1 c2 : comparison) : lex c1 c2 = Eq <-> c1 = Eq /\ c2 = Eq.
Proof. destruct c1, c2; simpl; intuition congruence. Qed.

Lemma lex_lt (c1 c2 : comparison) :
  lex c1 c2 = Lt <-> c1 = Lt \/ (c1 = Eq /\ c2 = Lt).
Proof. destruct c1, c2; simpl; intuition congruence. Qed.

Lemma lex_gt (c1 c2 : comparison) :
  lex c1 c2 = Gt <-> c1 = Gt \/ (c1 = Eq /\ c2 = Gt).
Proof. destruct c1, c2; simpl; intuition congruence. Qed.

Lemma date_cmp_eq (a b : date) : date_cmp a b = Eq <-> a = b.
Proof.
  destruct a as [[y1 m1] d1], b as [[y2 m2] d2]. unfold date_cmp.
  rewrite !lex_eq, !Z.compare_eq_iff. split.
  - intros [-> [-> ->]]. reflexivity.
  - intros H. injection H as -> -> ->. auto.
Qed.

Lemma date_eqb_eq (a b : date) : date_eqb a b = true <-> a = b.
Proof.
  unfold date_eqb. rewrite <- date_cmp_eq.
  destruct (date_cmp a b); split; congruence.
Qed.

Lemma date_cmp_lt_spec (a b : date) :
  date_cmp a b = Lt
  <-> (fst (fst a) < fst (fst b)
       \/ (fst (fst a) = fst (fst b)
           /\ (snd (fst a) < snd (fst b)
               \/ (snd (fst a) = snd (fst b) /\ snd a < snd b))))%Z.
Proof.
  destruct a as [[y1 m1] d1], b as [[y2 m2] d2]. unfold date_cmp. simpl.
  rewrite !lex_lt, !Z.compare_eq_iff, !Z.compare_lt_iff. tauto.
Qed.

Lemma date_cmp_gt_spec (a b : date) :
  date_cmp a b = Gt <-> date_cmp b a = Lt.
Proof.
  rewrite date_cmp_lt_spec.
  destruct a as [[y1 m1] d1], b as [[y2 m2] d2]. unfold date_cmp. simpl.
  rewrite !lex_gt, !Z.compare_eq_iff, !Z.compare_gt_iff. lia.
Qed.

Lemma date_cmp_lt_trans (a b c : date) :
  date_cmp a b = Lt -> date_cmp b c = Lt -> date_cmp a c = Lt.
Proof. rewrite !date_cmp_lt_spec. lia. Qed.

(** The group keys are the dates of the selection, each once, in
    increasing order. *)
Lemma In_insert_date (x d : date) (l : list date) :
  In d (insert_date x l) <-> d = x \/ In d l.
Proof.
  induction l as [|a rest IH]; simpl.
  - split; intros [H|H]; auto.
  - destruct (date_cmp x a) eqn:E; simpl.
    + apply date_cmp_eq in E. subst a. split; [auto|intros [->|H]; auto].
    + split; intros [H|H]; auto.
    + rewrite IH. split; intros [H|[H|H]]; auto.
Qed.

Lemma insert_date_sorted (x : date) (l : list date) :
  StronglySorted (fun a b => date_cmp a b = Lt) l ->
  StronglySorted (fun a b => date_cmp a b = Lt) (insert_date x l).
Proof.
  induction l as [|a rest IH]; intros Hs; simpl.
  - repeat constructor.
  - inversion Hs as [|a' rest' Hrest Hall]; subst.
    destruct (date_cmp x a) eqn:E.
    + exact Hs.
    + constructor; [exact Hs|]. constructor; [exact E|].
      eapply Forall_impl; [|exact Hall]. intros b Hb.
      now apply date_cmp_lt_trans with a.
    + constructor; [now apply IH|].
      apply Forall_forall. intros b Hb. apply In_insert_date in Hb.
      destruct Hb as [->|Hb]; [now apply date_cmp_gt_spec|].
      rewrite Forall_forall in Hall. now apply Hall.
Qed.

Lemma group_dates_sorted (sel : list Reading) :
  StronglySorted (fun a b => date_cmp a b = Lt) (group_dates sel).
Proof.
  unfold group_dates. induction sel as [|r rest IH]; simpl; [constructor|].
  now apply insert_date_sorted.
Qed.

Lemma In_group_dates (d : date) (sel : list Reading) :
  In d (group_dates sel) <-> exists r, In r sel /\ date_of (timestamp r) = d.
Proof.
  unfold group_dates. induction sel as [|r rest IH]; simpl.
  - split; [intros []|intros [r [[] _]]].
  - rewrite In_insert_date, IH. split.
    + intros [->|[r' [H1 H2]]]; [exists r; auto|exists r'; auto].
    + intros [r' [[<-|H1] H2]]; [left; auto|right; exists r'; auto].
Qed.

Lemma sorted_dates_NoDup (l : list date) :
  StronglySorted (fun a b => date_cmp a b = Lt) l -> NoDup l.
Proof.
  induction 1 as [|a rest Hs IH Hall]; constructor; [|exact IH].
  intros Hin. rewrite Forall_forall in Hall. specialize (Hall a Hin).
  assert (E : date_cmp a a = Eq) by (now apply date_cmp_eq). congruence.
Qed.

(** Splitting a list by the distinct values of a key loses and repeats
    nothing. *)
Lemma filter_none {A : Type} (p : A -> bool) (l : list A) :
  (forall a, In a l -> p a = false) -> filter p l = [].
Proof.
  induction l as [|a rest IH]; intros H; simpl; [reflexivity|].
  rewrite (H a (or_introl eq_refl)). apply IH. intros b Hb. apply H. now right.
Qed.

Lemma flat_map_filter_skip (x : Reading) (l : list Reading) (ks : list date) :
  ~ In (date_of (timestamp x)) ks ->
  flat_map (fun k => filter (fun r => date_eqb (date_of (timestamp r)) k) (x :: l)) ks
  = flat_map (fun k => filter (fun r => date_eqb (date_of (timestamp r)) k) l) ks.
Proof.
  intros Hn. induction ks as [|k rest IH]; simpl; [reflexivity|].
  destruct (date_eqb (date_of (timestamp x)) k) eqn:E.
  - apply date_eqb_eq in E. exfalso. apply Hn. now left.
  - f_equal. apply IH. intros H. apply Hn. now right.
Qed.

Lemma groups_partition (l : list Reading) (ks : list date) :
  NoDup ks ->
  (forall r, In r l -> In (date_of (timestamp r)) ks) ->
  Permutation
    (flat_map (fun k => filter (fun r => date_eqb (date_of (timestamp r)) k) l) ks)
    l.
Proof.
  intros Hnd. induction l as [|x rest IH]; intros Hcov.
  - clear Hnd Hcov. induction ks as [|k ks IHk]; simpl; [constructor|exact IHk].
  - assert (Hx : In (date_of (timestamp x)) ks) by (apply Hcov; now left).
    apply in_split in Hx. destruct Hx as [k1 [k2 Hk]]. subst ks.
    apply NoDup_remove in Hnd. destruct Hnd as [Hnd Hnot].
    rewrite flat_map_app. cbn [flat_map].
    rewrite !flat_map_filter_skip
      by (intros H; apply Hnot; apply in_or_app; auto).
    assert (Ee : date_eqb (date_of (timestamp x)) (date_of (timestamp x)) = true)
      by (now apply date_eqb_eq).
    cbn [filter]. rewrite Ee.
    simpl. apply Permutation_sym, Permutation_cons_app, Permutation_sym.
    specialize (IH (fun r Hr => Hcov r (or_intror Hr))).
    rewrite flat_map_app in IH. exact IH.
Qed.

Lemma map_flat_map {A B C : Type} (f : B -> C) (g : A -> list B) (l : list A) :
  map f (flat_map g l) = flat_map (fun x => map f (g x)) l.
Proof.
  induction l as [|a rest IH]; simpl; [reflexivity|]. now rewrite map_app, IH.
Qed.

Lemma window_rows_readings (df : list Reading) (sd : SessionDef) :
  map reading (window_rows df sd)
  = flat_map
      (fun k => filter (fun r => date_eqb (date_of (timestamp r)) k)
                       (filter (inside sd) df))
      (group_dates (filter (inside sd) df)).
Proof.
  unfold window_rows, inside. destruct sd as [[[label wd] start] end_].
  rewrite map_flat_map. apply flat_map_ext. intros k.
  destruct (filter (fun r => date_eqb (date_of (timestamp r)) k) _) as [|a l];
    [reflexivity|].
  rewrite map_map. simpl. f_equal. apply map_id.
Qed.

(** X14.  The rows one window contributes are the readings inside that
    window, each exactly once: grouping them by calendar date loses and
    repeats nothing. *)
Theorem X14_window_rows_are_the_readings_inside
  (df : list Reading) (sd : SessionDef) :
  Permutation (map reading (window_rows df sd)) (filter (inside sd) df).
Proof.
  rewrite window_rows_readings. apply groups_partition.
  - apply sorted_dates_NoDup, group_dates_sorted.
  - intros r Hr. apply In_group_dates. now exists r.
Qed.

Lemma in_window_rows (df : list Reading) (label : string) (wd : Z)
  (start end_ : time) (t : Tagged) :
  In t (window_rows df (label, wd, start, end_)) ->
  exists first others,
    filter (fun r => date_eqb (date_of (timestamp r))
                              (date_of (timestamp (reading t))))
           (filter (inside (label, wd, start, end_)) df)
    = first :: others
    /\ In (reading t) (first :: others)
    /\ Session t
       = (date_str (date_of (timestamp (reading t))) ++ "_" ++ label)%string
    /\ Epoch t = fold_left datetime_min (map timestamp others) (timestamp first).
Proof.
  unfold window_rows, inside. intros H. apply in_flat_map in H.
  destruct H as [k [_ H]].
  destruct (filter (fun r => date_eqb (date_of (timestamp r)) k) _)
    as [|first others] eqn:E; [destruct H|].
  apply in_map_iff in H. destruct H as [r [<- Hr]]. simpl.
  assert (Hk : date_of (timestamp r) = k).
  { rewrite <- E in Hr. apply filter_In in Hr. now apply date_eqb_eq. }
  subst k. exists first, others.
  split; [exact E|]. split; [exact Hr|]. split; reflexivity.
Qed.

Ltac cmp_to_Z :=
  unfold datetime_le, datetime_cmp, date_cmp, time_cmp, date_of, dt_time; simpl;
  rewrite ?lex_gt, ?lex_lt, ?lex_eq, ?Z.compare_eq_iff, ?Z.compare_lt_iff,
    ?Z.compare_gt_iff.

Lemma datetime_le_refl (a : datetime) : datetime_le a a.
Proof. destruct a. cmp_to_Z. lia. Qed.

Lemma datetime_cmp_antisym (a b : datetime) :
  datetime_cmp a b = Gt <-> datetime_cmp b a = Lt.
Proof. destruct a, b. cmp_to_Z. lia. Qed.

Lemma datetime_le_trans (a b c : datetime) :
  datetime_le a b -> datetime_le b c -> datetime_le a c.
Proof. destruct a, b, c. cmp_to_Z. lia. Qed.

Lemma datetime_min_cases (a b : datetime) :
  (datetime_min a b = a \/ datetime_min a b = b)
  /\ datetime_le (datetime_min a b) a
  /\ datetime_le (datetime_min a b) b.
Proof.
  unfold datetime_min. destruct (datetime_cmp b a) eqn:E.
  - split; [now left|]. split; [apply datetime_le_refl|].
    unfold datetime_le. rewrite datetime_cmp_antisym. congruence.
  - split; [now right|]. split; [|apply datetime_le_refl].
    unfold datetime_le. congruence.
  - split; [now left|]. split; [apply datetime_le_refl|].
    unfold datetime_le. rewrite datetime_cmp_antisym. congruence.
Qed.

Lemma fold_min_least (l : list datetime) :
  forall a,
    In (fold_left datetime_min l a) (a :: l)
    /\ forall x, In x (a :: l) -> datetime_le (fold_left datetime_min l a) x.
Proof.
  induction l as [|b rest IH]; intros a; simpl.
  - split; [now left|]. intros x [<-|[]]. apply datetime_le_refl.
  - destruct (IH (datetime_min a b)) as [Hin Hle].
    destruct (datetime_min_cases a b) as [Hc [Hla Hlb]]. split.
    + destruct Hin as [Hin|Hin]; [|now right; right].
      rewrite <- Hin. destruct Hc as [-> | ->]; auto.
    + intros x [<-|[<-|Hx]].
      * eapply datetime_le_trans; [|exact Hla]. apply Hle. now left.
      * eapply datetime_le_trans; [|exact Hlb]. apply Hle. now left.
      * apply Hle. now right.
Qed.

(** X15.  Each row of a session instance carries as [Session] the date of
    its own timestamp joined to the window's label, and as [Epoch] the
    timestamp of a reading of the same window and date which is not after
    any other such reading: the first reading of that session instance. *)
Theorem X15_session_name_and_epoch
  (df : list Reading) (label : string) (wd : Z) (start end_ : time) (t : Tagged) :
  In t (window_rows df (label, wd, start, end_)) ->
  Session t = (date_str (date_of (timestamp (reading t))) ++ "_" ++ label)%string
  /\ (exists r,
        In r df
        /\ session_includes (timestamp r) wd start end_ = true
        /\ date_of (timestamp r) = date_of (timestamp (reading t))
        /\ Epoch t = timestamp r)
  /\ (forall r,
        In r df ->
        session_includes (timestamp r) wd start end_ = true ->
        date_of (timestamp r) = date_of (timestamp (reading t)) ->
        datetime_le (Epoch t) (timestamp r)).
Proof.
  intros Ht. destruct (in_window_rows _ _ _ _ _ _ Ht)
    as [first [others [E [_ [Hs He]]]]].
  split; [exact Hs|].
  destruct (fold_min_least (map timestamp others) (timestamp first)) as [Hin Hle].
  rewrite <- He in Hin, Hle.
  assert (Hgroup : forall r,
            In r (first :: others)
            <-> In r df
                /\ session_includes (timestamp r) wd start end_ = true
                /\ date_of (timestamp r) = date_of (timestamp (reading t))).
  { intros r. rewrite <- E, !filter_In, date_eqb_eq. unfold inside. tauto. }
  split.
  - change (timestamp first :: map timestamp others)
      with (map timestamp (first :: others)) in Hin.
    apply in_map_iff in Hin. destruct Hin as [r [Hr Hin]].
    exists r. apply Hgroup in Hin. intuition.
  - intros r H1 H2 H3. apply Hle.
    change (timestamp first :: map timestamp others)
      with (map timestamp (first :: others)).
    apply in_map, Hgroup. auto.
Qed.

Lemma flat_map_nil {A B : Type} (g : A -> list B) (l : list A) :
  flat_map g l = [] <-> forall a, In a l -> g a = [].
Proof.
  induction l as [|a rest IH]; simpl.
  - split; [intros _ a []|reflexivity].
  - split.
    + intros H. apply app_eq_nil in H. destruct H as [Ha Hr].
      intros b [<-|Hb]; [exact Ha|]. now apply IH.
    + intros H. rewrite (H a (or_introl eq_refl)). simpl. apply IH.
      intros b Hb. apply H. now right.
Qed.

Lemma filter_nil {A : Type} (p : A -> bool) (l : list A) :
  filter p l = [] <-> forall a, In a l -> p a = false.
Proof.
  split; [|apply filter_none].
  intros H a Ha. destruct (p a) eqn:E; [|reflexivity].
  assert (Hin : In a (filter p l)) by (apply filter_In; now split).
  rewrite H in Hin. destruct Hin.
Qed.

Lemma window_rows_nil (df : list Reading) (sd : SessionDef) :
  window_rows df sd = [] <-> filter (inside sd) df = [].
Proof.
  assert (P : Permutation (map reading (window_rows df sd)) (filter (inside sd) df)).
  { rewrite window_rows_readings. apply groups_partition.
    - apply sorted_dates_NoDup, group_dates_sorted.
    - intros r Hr. apply In_group_dates. now exists r. }
  split; intros H.
  - rewrite H in P. simpl in P. now apply Permutation_nil in P.
  - rewrite H in P. apply Permutation_sym, Permutation_nil in P.
    now apply map_eq_nil in P.
Qed.

Lemma matching_sessions_inside (r : Reading) :
  matching_sessions (timestamp r) = filter (fun sd => inside sd r) SESSIONS.
Proof. reflexivity. Qed.

(** X16.  The evaluation script raises on line 102, before it writes any
    report, exactly when no reading of the frame is inside any of the
    windows (in particular on an empty [spl_data]). *)
Theorem X16_evaluation_raises_iff_no_reading_in_a_window (df : list Reading) :
  evaluate df = None
  <-> forall r, In r df -> matching_sessions (timestamp r) = [].
Proof.
  unfold evaluate.
  assert (Hrows : flat_map (window_rows df) SESSIONS = []
                  <-> forall r, In r df -> matching_sessions (timestamp r) = []).
  { rewrite flat_map_nil. split.
    - intros H r Hr. rewrite matching_sessions_inside. apply filter_nil.
      intros sd Hsd. specialize (H sd Hsd). apply window_rows_nil in H.
      rewrite filter_nil in H. now apply H.
    - intros H sd Hsd. apply window_rows_nil, filter_nil. intros r Hr.
      specialize (H r Hr). rewrite matching_sessions_inside, filter_nil in H.
      now apply H. }
  destruct (flat_map (window_rows df) SESSIONS) eqn:E.
  - split; [intros _; now apply Hrows|reflexivity].
  - split; [discriminate|]. intros H. apply Hrows in H. discriminate.
Qed.

Lemma length_flat_map {A B : Type} (g : A -> list B) (l : list A) :
  List.length (flat_map g l) = list_sum (map (fun a => List.length (g a)) l).
Proof.
  induction l as [|a rest IH]; simpl; [reflexivity|]. now rewrite length_app, IH.
Qed.

Lemma count_exchange {A B : Type} (p : A -> B -> bool) (ks : list A) (l : list B) :
  list_sum (map (fun k => List.length (filter (p k) l)) ks)
  = list_sum (map (fun x => List.length (filter (fun k => p k x) ks)) l).
Proof.
  induction ks as [|k rest IH]; simpl.
  - induction l as [|x l IHl]; simpl; [reflexivity|exact IHl].
  - rewrite IH, length_filter_sum. clear IH.
    induction l as [|x l IHl]; simpl; [reflexivity|].
    destruct (p k x); simpl; lia.
Qed.

(** X17.  When the evaluation completes, its frame has one row for every
    pair of a reading and a window the reading is inside, so a reading
    inside two windows is evaluated twice and the frame has at most twice
    as many rows as there are readings. *)
Theorem X17_evaluated_rows_counted (df : list Reading) (rep : Report) :
  evaluate df = Some rep ->
  List.length (all_df rep)
  = list_sum (map (fun r => List.length (matching_sessions (timestamp r))) df)
  /\ (List.length (all_df rep) <= 2 * List.length df)%nat.
Proof.
  unfold evaluate. destruct (flat_map (window_rows df) SESSIONS) eqn:E;
    [discriminate|].
  intros H. injection H as <-. cbv zeta. cbn [all_df].
  change (evaluate_row t :: map evaluate_row l) with (map evaluate_row (t :: l)).
  rewrite length_map, <- E.
  assert (Hlen : List.length (flat_map (window_rows df) SESSIONS)
                 = list_sum (map (fun r => List.length
                                             (matching_sessions (timestamp r))) df)).
  { rewrite length_flat_map.
    rewrite (map_ext _ (fun sd => List.length (filter (inside sd) df))).
    - apply (count_exchange inside SESSIONS df).
    - intros sd. rewrite <- (length_map reading).
      apply Permutation_length.
      rewrite window_rows_readings. apply groups_partition.
      + apply sorted_dates_NoDup, group_dates_sorted.
      + intros r Hr. apply In_group_dates. now exists r. }
  split; [exact Hlen|]. rewrite Hlen. clear.
  induction df as [|r rest IH]; simpl; [lia|].
  pose proof (proj1 (open_windows_count (weekday (timestamp r))
                       (dt_time (timestamp r)) (weekday_range _))) as H2.
  rewrite <- matching_sessions_count in H2. lia.
Qed.

(** ** Examples for the windows and the evaluation *)

Lemma X11_witness_friday_evening_window :
  session_includes friday_2330 4 (time_hm 21 0) (time_hms 23 59 59)
  = (weekday friday_2330 =? 4)%Z
    && (time_le (time_hm 21 0) (dt_time friday_2330)
        && time_le (dt_time friday_2330) (time_hms 23 59 59)).
Proof.
  assert (Hin : In ("Friday_21-00", 4%Z, time_hm 21 0, time_hms 23 59 59) SESSIONS)
    by (unfold SESSIONS; simpl; tauto).
  exact (proj2 (proj2 (X11_script_windows_do_not_wrap _ _ _ _ Hin)) friday_2330).
Defined.

Lemma X15_witness_friday_reading :
  exists t,
    In t (window_rows (read_sql_query two_readings)
            ("Friday_21-00", 4%Z, time_hm 21 0, time_hms 23 59 59))
    /\ Session t
       = (date_str (date_of (timestamp (reading t))) ++ "_" ++ "Friday_21-00")%string
    /\ datetime_le (Epoch t) friday_2330.
Proof.
  assert (Hrows : exists t rest,
             window_rows (read_sql_query two_readings)
               ("Friday_21-00", 4%Z, time_hm 21 0, time_hms 23 59 59)
             = t :: rest
             /\ date_of (timestamp (reading t)) = date_of friday_2330)
    by (eexists; eexists; split; vm_compute; reflexivity).
  destruct Hrows as [t [rest [E Hd]]]. exists t.
  assert (Ht : In t (window_rows (read_sql_query two_readings)
                       ("Friday_21-00", 4%Z, time_hm 21 0, time_hms 23 59 59)))
    by (rewrite E; now left).
  destruct (X15_session_name_and_epoch _ _ _ _ _ t Ht) as [Hs [_ Hle]].
  split; [exact Ht|]. split; [exact Hs|].
  apply (Hle (mkReading friday_2330 (Fin (90 # 1)) (Fin (95 # 1)) (Fin (90 # 1))
                (Fin (90 # 1)) (Some "Balcony"))).
  - simpl. tauto.
  - reflexivity.
  - now rewrite Hd.
Defined.

Lemma X17_witness_two_readings :
  exists rep,
    evaluate (read_sql_query two_readings) = Some rep
    /\ (List.length (all_df rep) <= 2 * List.length (read_sql_query two_readings))%nat.
Proof.
  destruct (evaluate (read_sql_query two_readings)) as [rep|] eqn:E;
    [|vm_compute in E; discriminate].
  exists rep. split; [reflexivity|].
  exact (proj2 (X17_evaluated_rows_counted _ rep E)).
Defined.

(** ** The date and time texts of a key *)

Lemma length_append (a b : string) :
  String.length (a ++ b) = (String.length a + String.length b)%nat.
Proof. induction a as [|x a IH]; simpl; [reflexivity|now rewrite IH]. Qed.

Lemma append_inj_length (a a' b b' : string) :
  String.length a = String.length a' ->
  (a ++ b = a' ++ b')%string -> a = a' /\ b = b'.
Proof.
  revert a'. induction a as [|x a IH]; intros [|x' a'] Hlen H;
    try discriminate; simpl in *.
  - now split.
  - injection H as -> H. injection Hlen as Hlen.
    destruct (IH a' Hlen H) as [-> ->]. now split.
Qed.

Lemma zfill_length (w : nat) : forall n, String.length (zfill w n) = w.
Proof.
  induction w as [|w IH]; intros n; simpl; [reflexivity|].
  rewrite length_append, IH. simpl. lia.
Qed.

Lemma zfill_append_inj (w : nat) (a b : Z) (s t : string) :
  (zfill w a ++ s = zfill w b ++ t)%string -> zfill w a = zfill w b /\ s = t.
Proof.
  intros H. apply (append_inj_length _ _ _ _
                     (eq_trans (zfill_length w a) (eq_sym (zfill_length w b))) H).
Qed.

Lemma append_inj_l (p s t : string) : (p ++ s = p ++ t)%string -> s = t.
Proof.
  induction p as [|c p IH]; simpl; intros H; [exact H|].
  injection H as H. now apply IH.
Qed.

Lemma zfill_inj (w : nat) :
  forall a b,
    (0 <= a < 10 ^ Z.of_nat w)%Z -> (0 <= b < 10 ^ Z.of_nat w)%Z ->
    zfill w a = zfill w b -> a = b.
Proof.
  induction w as [|w IH]; intros a b Ha Hb H.
  - simpl in Ha, Hb. lia.
  - rewrite Nat2Z.inj_succ, Z.pow_succ_r in Ha, Hb by lia.
    cbn [zfill] in H.
    destruct (zfill_append_inj _ _ _ _ _ H) as [Hq Hr].
    assert (Eq : (a / 10 = b / 10)%Z).
    { apply IH; [| |exact Hq]; split;
        try (apply Z.div_pos; lia); apply Z.div_lt_upper_bound; lia. }
    assert (Er : (a mod 10 = b mod 10)%Z).
    { injection Hr as Hr. apply (f_equal nat_of_ascii) in Hr.
      pose proof (Z.mod_pos_bound a 10 ltac:(lia)).
      pose proof (Z.mod_pos_bound b 10 ltac:(lia)).
      rewrite !nat_ascii_embedding in Hr by lia. lia. }
    rewrite (Z.div_mod a 10), (Z.div_mod b 10) by lia. now rewrite Eq, Er.
Qed.

Lemma strftime_date_inj (a b : datetime) :
  fields_in_range a -> fields_in_range b ->
  strftime_date a = strftime_date b ->
  year a = year b /\ month a = month b /\ day a = day b.
Proof.
  unfold fields_in_range, strftime_date. intros Ha Hb H.
  destruct (zfill_append_inj _ _ _ _ _ H) as [Hy H1]. clear H.
  pose proof (append_inj_l _ _ _ H1) as H. clear H1.
  destruct (zfill_append_inj _ _ _ _ _ H) as [Hm H1]. clear H.
  pose proof (append_inj_l _ _ _ H1) as Hd. clear H1.
  apply (zfill_inj 4) in Hy; [|simpl; lia|simpl; lia].
  apply (zfill_inj 2) in Hm; [|simpl; lia|simpl; lia].
  apply (zfill_inj 2) in Hd; [|simpl; lia|simpl; lia].
  auto.
Qed.

Lemma strftime_time_inj (a b : datetime) :
  fields_in_range a -> fields_in_range b ->
  strftime_time a = strftime_time b ->
  hour a = hour b /\ minute a = minute b /\ second a = second b
  /\ microsecond a = microsecond b.
Proof.
  unfold fields_in_range, strftime_time. intros Ha Hb H.
  destruct (zfill_append_inj _ _ _ _ _ H) as [Hh H1]. clear H.
  pose proof (append_inj_l _ _ _ H1) as H. clear H1.
  destruct (zfill_append_inj _ _ _ _ _ H) as [Hm H1]. clear H.
  pose proof (append_inj_l _ _ _ H1) as H. clear H1.
  destruct (zfill_append_inj _ _ _ _ _ H) as [Hs H1]. clear H.
  pose proof (append_inj_l _ _ _ H1) as Hu. clear H1.
  apply (zfill_inj 2) in Hh; [|simpl; lia|simpl; lia].
  apply (zfill_inj 2) in Hm; [|simpl; lia|simpl; lia].
  apply (zfill_inj 2) in Hs; [|simpl; lia|simpl; lia].
  apply (zfill_inj 6) in Hu; [|simpl; lia|simpl; lia].
  auto.
Qed.

(** X21.  The date text has ten characters and the time text fifteen, and
    together they determine the instant: two timestamps with fields in
    range that give the same [%Y-%m-%d] and [%H:%M:%S.%f] texts are equal,
    so readings taken at different instants never share a key. *)
Theorem X21_key_texts_determine_the_instant (a b : datetime) :
  fields_in_range a ->
  fields_in_range b ->
  String.length (strftime_date a) = 10%nat
  /\ String.length (strftime_time a) = 15%nat
  /\ (strftime_date a = strftime_date b ->
      strftime_time a = strftime_time b ->
      a = b).
Proof.
  intros Ha Hb. split; [|split].
  - unfold strftime_date. rewrite !length_append, !zfill_length. reflexivity.
  - unfold strftime_time. rewrite !length_append, !zfill_length. reflexivity.
  - intros Hd Ht.
    destruct (strftime_date_inj a b Ha Hb Hd) as [H1 [H2 H3]].
    destruct (strftime_time_inj a b Ha Hb Ht) as [H4 [H5 [H6 H7]]].
    destruct a, b. simpl in *. congruence.
Qed.

Lemma X21_witness_friday :
  String.length (strftime_date friday_2330) = 10%nat
  /\ String.length (strftime_time friday_2330) = 15%nat.
Proof.
  assert (Hr : fields_in_range friday_2330)
    by (unfold fields_in_range; simpl; lia).
  destruct (X21_key_texts_determine_the_instant friday_2330 friday_2330 Hr Hr)
    as [H1 [H2 _]].
  split; [exact H1|exact H2].
Defined.

Lemma X19_witness_no_records :
  parse_header_and_data toy_readlines toy_read_csv toy_strptime recordless_file
  = None
  /\ parse_header_and_data toy_readlines toy_read_csv toy_strptime headless_file
     = None.
Proof.
  split.
  - destruct (X19_data_start_and_missing_records
                toy_readlines toy_read_csv toy_strptime recordless_file
                (split_lines "" recordless_log)) as [H _];
      [vm_compute; reflexivity|].
    apply (H (map (fun l => (l ++ newline)%string) rew_header)
             ("Time[s], LCS, LCeq" ++ newline)%string []).
    + vm_compute. reflexivity.
    + intros x Hx. simpl in Hx.
      repeat (destruct Hx as [<-|Hx]; [vm_compute; reflexivity|]). destruct Hx.
    + vm_compute. reflexivity.
    + reflexivity.
  - destruct (X19_data_start_and_missing_records
                toy_readlines toy_read_csv toy_strptime headless_file
                (split_lines "" headless_log)) as [_ H];
      [vm_compute; reflexivity|].
    apply H.
    + intros x Hx. vm_compute in Hx.
      repeat (destruct Hx as [<-|Hx]; [vm_compute; reflexivity|]). destruct Hx.
    + vm_compute. lia.
Defined.

Lemma X20_witness_club_note :
  extract_location toy_readlines virtual_file = "Nightclub".
Proof.
  apply (proj1 (X20_location_from_second_line toy_readlines virtual_file)).
  exists (split_lines "" virtual_log), ("Note: club, soundcard loopback" ++ newline)%string.
  split; [vm_compute; reflexivity|]. split; [vm_compute; reflexivity|].
  split; [vm_compute; reflexivity|]. right. left. vm_compute. reflexivity.
Defined.
